(** * mrpy: the analytic likelihood model [IdealAnalytic]

    A shallow embedding of [mrpy/analytic_model.py] and a verification of
    the statements its specification makes about it.

    The module is Python 2 code over numpy.  Its values are embedded as a
    small universe of Python objects ([value]); numpy arrays are nested
    lists of binary64 numbers ([nd]) with numpy's broadcasting written
    out; exceptions are the [Raise] results of an error monad.  An
    instance of the class is its attribute dictionary, a [gmap] from
    attribute names to values.

    What the module imports from elsewhere (the special functions, mpmath's
    [hyper], LAPACK's inverse, the parent class [MRP_PO_Likelihood]) is
    gathered in the class [Provider]; every statement below holds for any
    provider.

    The functions of [mrpy/physical_dependence.py] are embedded after the
    class, over the same values and arithmetic. *)

From Stdlib Require Import ZArith Floats.
From stdpp Require Import gmap strings list pretty.
From Equations Require Import Equations.

Set Default Proof Using "Type".
Set Warnings "-register-all".
Local Open Scope string_scope.

(** ** Exceptions and the error monad *)

Inductive exn : Type :=
  | ValueError (msg : string)
  | TypeError (msg : string)
  | IndexError (msg : string)
  | AttributeError (name : string)
  | ZeroDivisionError (msg : string)
  | OverflowError (msg : string)
  | LinAlgError (msg : string)
  | ProviderError (msg : string).

Inductive result (A : Type) : Type :=
  | Ok (a : A)
  | Raise (e : exn).
Arguments Ok {A} a.
Arguments Raise {A} e.

Definition bind {A B} (m : result A) (k : A → result B) : result B :=
  match m with
  | Ok a => k a
  | Raise e => Raise e
  end.

Notation "x <- e ;; k" := (bind e (fun x => k))
  (at level 100, e at next level, right associativity,
   format "'[v' x  <-  e  ;;  '/' k ']'").

(** [try: body except: handler] with a bare [except]. *)
Definition try_except {A} (body handler : result A) : result A :=
  match body with
  | Ok a => Ok a
  | Raise _ => handler
  end.

Definition is_Ok {A} (r : result A) : Prop := ∃ a, r = Ok a.
Definition raises {A} (r : result A) : Prop := ∃ e, r = Raise e.

Fixpoint mapM {A B} (f : A → result B) (l : list A) : result (list B) :=
  match l with
  | [] => Ok []
  | x :: r => y <- f x ;; ys <- mapM f r ;; Ok (y :: ys)
  end.

(** ** binary64 numbers

    A Python [float] and a numpy [float64] are IEEE binary64 numbers: the
    kernel's primitive floats, whose [+ - * /] and [sqrt] are the
    correctly rounded operations. *)

Definition fzero : float := 0%float.
Definition fone : float := 1%float.

(** [x == 0.0]: true of both zeros, false of NaN. *)
Definition f_is_zero (x : float) : bool := PrimFloat.eqb x fzero.

(** A Python [int] as a float: rounded to nearest even, as CPython does. *)
Definition float_of_Z (n : Z) : float :=
  SF2Prim (binary_normalize prec emax n 0 false).

Definition f_is_inf (x : float) : bool :=
  PrimFloat.eqb (PrimFloat.abs x) infinity.

(** ** numpy arrays

    An [nd] is a 0-d array [Sc x] or an array [Ar l] whose leading axis
    runs over [l].  Arrays are of dtype float64: integers that enter numpy
    are converted (integer dtypes are not part of the model). *)

Inductive nd : Type :=
  | Sc (x : float)
  | Ar (l : list nd).

(** The number of axes, read along the first entries. *)
Fixpoint rank (a : nd) : nat :=
  match a with
  | Sc _ => 0
  | Ar [] => 1
  | Ar (x :: _) => S (rank x)
  end.

Fixpoint shape (a : nd) : list nat :=
  match a with
  | Sc _ => []
  | Ar [] => [0]
  | Ar ((x :: _) as l) => length l :: shape x
  end.

Fixpoint nd_map (f : float → float) (a : nd) : nd :=
  match a with
  | Sc x => Sc (f x)
  | Ar l => Ar (map (nd_map f) l)
  end.

Fixpoint nd_mapM (f : float → result float) (a : nd) : result nd :=
  match a with
  | Sc x => y <- f x ;; Ok (Sc y)
  | Ar l => l' <- mapM (nd_mapM f) l ;; Ok (Ar l')
  end.

(** All entries, in C order. *)
Fixpoint nd_flat (a : nd) : list float :=
  match a with
  | Sc x => [x]
  | Ar l => concat (map nd_flat l)
  end.

Fixpoint zipM {A B C} (f : A → B → result C) (l : list A) (k : list B)
  : result (list C) :=
  match l, k with
  | x :: l', y :: k' => z <- f x y ;; zs <- zipM f l' k' ;; Ok (z :: zs)
  | _, _ => Ok []
  end.

Definition broadcast_msg : string :=
  "operands could not be broadcast together".

(** Elementwise [f] under numpy's broadcasting: shapes are aligned at
    their last axes, an operand of lower rank is repeated along the
    leading axes of the other, and along an axis two lengths must agree
    or one of them be 1. *)
Fixpoint nd_map2 (f : float → float → float) (a : nd) : nd → result nd :=
  fix with_a (b : nd) : result nd :=
    match a, b with
    | Sc x, Sc y => Ok (Sc (f x y))
    | Sc _, Ar lb => l <- mapM with_a lb ;; Ok (Ar l)
    | Ar la, Sc _ => l <- mapM (λ ai, nd_map2 f ai b) la ;; Ok (Ar l)
    | Ar la, Ar lb =>
        if (rank a <? rank b)%nat then
          l <- mapM with_a lb ;; Ok (Ar l)
        else if (rank b <? rank a)%nat then
          l <- mapM (λ ai, nd_map2 f ai b) la ;; Ok (Ar l)
        else if (length la =? length lb)%nat then
          l <- zipM (λ ai bi, nd_map2 f ai bi) la lb ;; Ok (Ar l)
        else
          match la, lb with
          | [a0], _ => l <- mapM (λ bi, nd_map2 f a0 bi) lb ;; Ok (Ar l)
          | _, [b0] => l <- mapM (λ ai, nd_map2 f ai b0) la ;; Ok (Ar l)
          | _, _ => Raise (ValueError broadcast_msg)
          end
    end.

(** [np.squeeze]: every axis of length 1 is removed. *)
Fixpoint nd_squeeze (a : nd) : nd :=
  match a with
  | Sc x => Sc x
  | Ar [x] => nd_squeeze x
  | Ar l => Ar (map nd_squeeze l)
  end.

(** ** Python objects *)

Inductive value : Type :=
  | PyNone
  | PyInt (n : Z)
  | PyFloat (x : float)
  | NpFloat (x : float)                  (* a numpy.float64 scalar *)
  | NdArray (a : nd)                     (* a numpy.ndarray *)
  | PyList (l : list value)
  | PyTuple (l : list value)
  | ObjArray (l : list value)            (* a 1-d ndarray of dtype object *)
  | PyMethod (self : value) (name : string).   (* a bound method *)

(** What a ufunc returns: a 0-d result is handed back as a numpy scalar. *)
Definition nd_to_value (a : nd) : value :=
  match a with
  | Sc x => NpFloat x
  | _ => NdArray a
  end.

Definition int_to_float (n : Z) : result float :=
  let x := float_of_Z n in
  if f_is_inf x then Raise (OverflowError "long int too large to convert to float")
  else Ok x.

(** [np.array(v)] / [np.asarray(v)] for numbers, arrays and (nested) lists
    of them; the entries of a list must have one shape.  Object arrays
    are not part of the model. *)
Definition ragged_msg : string := "setting an array element with a sequence.".

Fixpoint all_same_shape (s : list nat) (l : list nd) : bool :=
  match l with
  | [] => true
  | x :: r => bool_decide (shape x = s) && all_same_shape s r
  end.

Definition nd_stack (l : list nd) : result nd :=
  match l with
  | [] => Ok (Ar [])
  | x :: r => if all_same_shape (shape x) r then Ok (Ar l)
              else Raise (ValueError ragged_msg)
  end.

Fixpoint as_nd (v : value) : result nd :=
  match v with
  | PyInt n => x <- int_to_float n ;; Ok (Sc x)
  | PyFloat x => Ok (Sc x)
  | NpFloat x => Ok (Sc x)
  | NdArray a => Ok a
  | PyList l => l' <- mapM as_nd l ;; nd_stack l'
  | PyTuple l => l' <- mapM as_nd l ;; nd_stack l'
  | PyNone | ObjArray _ | PyMethod _ _ =>
      Raise (TypeError "unsupported operand type(s)")
  end.

Definition np_array (v : value) : result value :=
  a <- as_nd v ;; Ok (NdArray a).

(** *** Truth, length, indexing, iteration *)

Definition ambiguous_msg : string :=
  "The truth value of an array with more than one element is ambiguous. Use a.any() or a.all()".

(** [bool(v)], as [or], [if] and [while] take it. *)
Fixpoint truthy (v : value) : result bool :=
  match v with
  | PyNone => Ok false
  | PyInt n => Ok (negb (n =? 0)%Z)
  | PyFloat x | NpFloat x => Ok (negb (f_is_zero x))
  | NdArray a =>
      match nd_flat a with
      | [] => Ok false
      | [x] => Ok (negb (f_is_zero x))
      | _ => Raise (ValueError ambiguous_msg)
      end
  | PyList l | PyTuple l => Ok (negb (bool_decide (l = [])))
  | ObjArray l =>
      match l with
      | [] => Ok false
      | [x] => truthy x
      | _ => Raise (ValueError ambiguous_msg)
      end
  | PyMethod _ _ => Ok true
  end.

(** [a or b]: [b] is evaluated only when [a] is false. *)
Definition py_or (a : value) (b : result value) : result value :=
  t <- truthy a ;; if t then Ok a else b.

(** [hasattr(v, "__len__")]. *)
Definition has_len (v : value) : bool :=
  match v with
  | NdArray _ | PyList _ | PyTuple _ | ObjArray _ => true
  | _ => false
  end.

(** [getattr(v, "__len__", None)]. *)
Definition getattr_len (v : value) : value :=
  if has_len v then PyMethod v "__len__" else PyNone.

Definition py_len (v : value) : result nat :=
  match v with
  | NdArray (Ar l) => Ok (length l)
  | NdArray (Sc _) => Raise (TypeError "len() of unsized object")
  | PyList l | PyTuple l | ObjArray l => Ok (length l)
  | _ => Raise (TypeError "object has no len()")
  end.

(** The entries along the leading axis: what [for x in v] runs over. *)
Definition py_iter (v : value) : result (list value) :=
  match v with
  | NdArray (Ar l) => Ok (map nd_to_value l)
  | NdArray (Sc _) => Raise (TypeError "iteration over a 0-d array")
  | PyList l | PyTuple l | ObjArray l => Ok l
  | _ => Raise (TypeError "object is not iterable")
  end.

(** [v[i]] for a natural index. *)
Definition py_getitem (v : value) (i : nat) : result value :=
  match v with
  | NdArray (Ar l) =>
      match l !! i with
      | Some x => Ok (nd_to_value x)
      | None => Raise (IndexError "index out of bounds")
      end
  | NdArray (Sc _) | NpFloat _ =>
      Raise (IndexError "invalid index to scalar variable.")
  | PyList l | PyTuple l | ObjArray l =>
      match l !! i with
      | Some x => Ok x
      | None => Raise (IndexError "list index out of range")
      end
  | _ => Raise (TypeError "object has no attribute '__getitem__'")
  end.

(** [l[i] = x] on a list. *)
Definition list_setitem (v : value) (i : nat) (x : value) : result value :=
  match v with
  | PyList l =>
      if (i <? length l)%nat then Ok (PyList (<[i := x]> l))
      else Raise (IndexError "list assignment index out of range")
  | _ => Raise (TypeError "object does not support item assignment")
  end.

(** [float(v)]. *)
Definition py_float (v : value) : result value :=
  match v with
  | PyInt n => x <- int_to_float n ;; Ok (PyFloat x)
  | PyFloat x | NpFloat x => Ok (PyFloat x)
  | NdArray a =>
      match nd_flat a with
      | [x] => Ok (PyFloat x)
      | _ => Raise (TypeError "only length-1 arrays can be converted to Python scalars")
      end
  | _ => Raise (TypeError "float() argument must be a string or a number")
  end.

(** [zip] of three sequences and [enumerate]. *)
Fixpoint zip3 (a b c : list value) : list value :=
  match a, b, c with
  | x :: a', y :: b', z :: c' => PyTuple [x; y; z] :: zip3 a' b' c'
  | _, _, _ => []
  end.

Fixpoint enumerate_from (i : nat) (l : list value) : list value :=
  match l with
  | [] => []
  | x :: r => PyTuple [PyInt (Z.of_nat i); x] :: enumerate_from (S i) r
  end.

Definition enumerate (l : list value) : list value := enumerate_from 0 l.

(** Unpacking an item into [n] targets, as [for t1, ..., tn in ...] does
    (the messages are Python 2's). *)
Definition unpack (n : nat) (item : value) : result (list value) :=
  l <- py_iter item ;;
  if (length l <? n)%nat then
    Raise (ValueError ("need more than " +:+ pretty (length l) +:+
                       (if (length l =? 1)%nat then " value" else " values") +:+
                       " to unpack"))
  else if (n <? length l)%nat then
    Raise (ValueError "too many values to unpack")
  else Ok l.

(** ** What the module imports

    [special], [core] and [likelihoods] are modules of the package that the
    class builds on; mpmath, libm and LAPACK are libraries.  None of them
    is part of [analytic_model.py]: they are the parameters of the
    development.  An instance is its attribute dictionary. *)

Class Provider : Type := {
  (* libm, as numpy's ufuncs apply it to a float64 *)
  f_exp : float → float;
  f_log : float → float;
  npy_pow : float → float → float;
  (* CPython's float.__pow__, with the exceptions it raises *)
  float_pow : float → float → result float;
  (* special.gamma, special.gammainc, special.polygamma *)
  gamma : value → result value;
  gammainc : value → value → result value;
  polygamma : value → value → result value;
  (* mpmath.hyper *)
  hyper : value → value → value → result value;
  (* core.mrp_shape, core.ln_mrp_shape *)
  mrp_shape : value → value → value → value → result value;
  ln_mrp_shape : value → value → value → value → result value;
  (* LAPACK's inverse of a (stack of) square matrices *)
  lapack_inv : nd → result nd;
  (* MRP_PO_Likelihood.__init__(logm=..., **kwargs): the attributes it sets *)
  super_init : value → gmap string value → result (gmap string value);
  (* the properties of MRP_PO_Likelihood, by name *)
  inherited : string → gmap string value → result value;
  (* MRP_PO_Likelihood._meijerg(a, b, x) *)
  _meijerg : gmap string value → value → value → value → result value
}.

(** ** Arithmetic *)

Inductive binop : Type := Add | Sub | Mul | Div | Pow.

Section Arithmetic.
Context `{Provider}.

(** The float64 loop of a binary ufunc.  Division by zero gives an
    infinity or a NaN (numpy warns and goes on). *)
Definition npy_binop (op : binop) : float → float → float :=
  match op with
  | Add => PrimFloat.add
  | Sub => PrimFloat.sub
  | Mul => PrimFloat.mul
  | Div => PrimFloat.div
  | Pow => npy_pow
  end.

(** Python's own arithmetic on two floats. *)
Definition py_float_op (op : binop) (x y : float) : result value :=
  match op with
  | Add => Ok (PyFloat (PrimFloat.add x y))
  | Sub => Ok (PyFloat (PrimFloat.sub x y))
  | Mul => Ok (PyFloat (PrimFloat.mul x y))
  | Div => if f_is_zero y then Raise (ZeroDivisionError "float division by zero")
           else Ok (PyFloat (PrimFloat.div x y))
  | Pow => r <- float_pow x y ;; Ok (PyFloat r)
  end.

(** Python 2 arithmetic on two ints: [/] is the floor division (the module
    does not import [division] from [__future__]). *)
Definition py_int_op (op : binop) (m n : Z) : result value :=
  match op with
  | Add => Ok (PyInt (m + n))
  | Sub => Ok (PyInt (m - n))
  | Mul => Ok (PyInt (m * n))
  | Div => if (n =? 0)%Z
           then Raise (ZeroDivisionError "integer division or modulo by zero")
           else Ok (PyInt (m / n))
  | Pow => if (0 <=? n)%Z then Ok (PyInt (m ^ n))
           else x <- int_to_float m ;; y <- int_to_float n ;; py_float_op Pow x y
  end.

Definition is_numpy (v : value) : bool :=
  match v with
  | NpFloat _ | NdArray _ => true
  | _ => false
  end.

(** [a op b].  Two Python numbers follow Python's rules; as soon as one
    operand is a numpy scalar or array the ufunc is applied, the other
    operand converted. *)
Definition py_binop (op : binop) (a b : value) : result value :=
  match a, b with
  | PyInt m, PyInt n => py_int_op op m n
  | PyInt m, PyFloat y => x <- int_to_float m ;; py_float_op op x y
  | PyFloat x, PyInt n => y <- int_to_float n ;; py_float_op op x y
  | PyFloat x, PyFloat y => py_float_op op x y
  | _, _ =>
      if is_numpy a || is_numpy b then
        x <- as_nd a ;; y <- as_nd b ;;
        r <- nd_map2 (npy_binop op) x y ;;
        Ok (nd_to_value r)
      else
        match op, a, b with
        | Add, PyList l, PyList k => Ok (PyList (l ++ k))
        | Add, PyTuple l, PyTuple k => Ok (PyTuple (l ++ k))
        | Mul, PyList l, PyInt n | Mul, PyInt n, PyList l =>
            Ok (PyList (concat (replicate (Z.to_nat n) l)))
        | Mul, PyTuple l, PyInt n | Mul, PyInt n, PyTuple l =>
            Ok (PyTuple (concat (replicate (Z.to_nat n) l)))
        | _, _, _ => Raise (TypeError "unsupported operand type(s)")
        end
  end.

Definition py_add := py_binop Add.
Definition py_sub := py_binop Sub.
Definition py_mul := py_binop Mul.
Definition py_div := py_binop Div.
Definition py_pow := py_binop Pow.

(** [-v]. *)
Definition py_neg (v : value) : result value :=
  match v with
  | PyInt n => Ok (PyInt (- n))
  | PyFloat x => Ok (PyFloat (PrimFloat.opp x))
  | NpFloat x => Ok (NpFloat (PrimFloat.opp x))
  | NdArray a => Ok (NdArray (nd_map PrimFloat.opp a))
  | _ => Raise (TypeError "bad operand type for unary -")
  end.

(** A unary ufunc: [np.exp], [np.log], [np.sqrt]. *)
Definition np_ufunc (f : float → float) (v : value) : result value :=
  a <- as_nd v ;; Ok (nd_to_value (nd_map f a)).

Definition np_exp := np_ufunc f_exp.
Definition np_log := np_ufunc f_log.

(** [np.squeeze]: an array is squeezed (a 0-d array may come out), a
    numpy scalar is returned as it is, anything else is first made an
    array. *)
Definition np_squeeze (v : value) : result value :=
  match v with
  | NpFloat x => Ok (NpFloat x)
  | _ => a <- as_nd v ;; Ok (NdArray (nd_squeeze a))
  end.

Definition np_zeros_like (v : value) : result value :=
  a <- as_nd v ;; Ok (NdArray (nd_map (λ _, fzero) a)).

Definition np_atleast_1d (v : value) : result value :=
  a <- as_nd v ;;
  match a with
  | Sc x => Ok (NdArray (Ar [Sc x]))
  | _ => Ok (NdArray a)
  end.

(** [np.repeat(v, n)]: the flattened entries, each [n] times. *)
Definition np_repeat (v : value) (n : nat) : result value :=
  a <- as_nd v ;;
  Ok (NdArray (Ar (concat (map (λ x, replicate n (Sc x)) (nd_flat a))))).

(** [np.product(l)]: the product of all entries. *)
Definition np_product (v : value) : result value :=
  a <- as_nd v ;;
  Ok (NpFloat (foldl PrimFloat.mul fone (nd_flat a))).




(** [np.linalg.inv]: numpy refuses an argument of fewer than two axes
    before LAPACK is called. *)
Definition np_linalg_inv (v : value) : result value :=
  a <- as_nd v ;;
  if (rank a <? 2)%nat then
    Raise (LinAlgError (pretty (rank a) +:+
      "-dimensional array given. Array must be at least two-dimensional"))
  else r <- lapack_inv a ;; Ok (NdArray r).

End Arithmetic.

(** ** Helper functions of the module *)

Section Helpers.
Context `{Provider}.

(** [ln10 = np.log(10)]. *)
Definition ln10 : result value := np_log (PyInt 10).

(** [np.frompyfunc(f, 1, 1)]: [f] on every entry, handed over as a Python
    float.  The object array that comes out is represented by the float64
    array of its entries. *)
Definition frompyfunc1 (f : value → result value) (v : value) : result value :=
  a <- as_nd v ;;
  r <- nd_mapM (λ x, y <- f (PyFloat x) ;; y' <- as_nd y ;;
                     match y' with
                     | Sc r => Ok r
                     | Ar _ => Raise (ValueError ragged_msg)
                     end) a ;;
  Ok (nd_to_value r).

(** [gammaA = np.frompyfunc(lambda z: float(gamma(z)), 1, 1)]. *)
Definition gammaA : value → result value :=
  frompyfunc1 (λ z, g <- gamma z ;; py_float g).

(** [hyperA = np.frompyfunc(lambda a, b, z: float(hyper(a, b, z)), 3, 1)],
    for the arguments the class gives it: two object arrays of one entry
    each, broadcast against the entries of [z]. *)
Definition hyperA (a_s b_s z : value) : result value :=
  match a_s, b_s with
  | ObjArray [a], ObjArray [b] =>
      frompyfunc1 (λ zz, h <- hyper a b zz ;; py_float h) z
  | _, _ => Raise (TypeError "hyperA: arguments outside the model")
  end.

(** [hyperRegA(a, b, z)]. *)
Definition hyperRegA (a b z : value) : result value :=
  h <- hyperA a b z ;;
  bs <- py_iter b ;;
  gs <- mapM gammaA bs ;;
  p <- np_product (PyList gs) ;;
  py_div h p.

(** [hyperReg(a, b, z)]. *)
Definition hyperReg (a b z : value) : result value :=
  h <- hyper a b z ;;
  bs <- py_iter b ;;
  gs <- mapM gamma bs ;;
  p <- np_product (PyList gs) ;;
  q <- py_div h p ;;
  py_float q.

(** [out[i] = x] on an array, [i] an unpacked loop index. *)
Definition nd_setitem (out i x : value) : result value :=
  match out, i with
  | NdArray (Ar l), PyInt n =>
      a <- as_nd x ;;
      if (0 <=? n)%Z && (Z.to_nat n <? length l)%nat
      then Ok (NdArray (Ar (<[Z.to_nat n := a]> l)))
      else Raise (IndexError "index out of bounds")
  | _, _ => Raise (TypeError "object does not support item assignment")
  end.

(** A [for] loop over [items] that threads the variables [s] its body
    assigns. *)
Fixpoint for_each {S} (items : list value) (s : S)
    (body : value → S → result S) : result S :=
  match items with
  | [] => Ok s
  | item :: rest => s' <- body item s ;; for_each rest s' body
  end.

(** [.astype("float")]. *)
Definition astype_float (v : value) : result value :=
  a <- as_nd v ;; Ok (nd_to_value a).

(** [IdealAnalytic._hyperReg(self, a, b, z)]; it does not read [self]. *)
Definition _hyperReg (a b z : value) : result value :=
  a0 <- py_getitem a 0 ;;
  if has_len a0 then
    (* x = copy(a); y = copy(b) *)
    let x := a in
    let y := b in
    out <- np_zeros_like a0 ;;
    z <- np_atleast_1d z ;;
    n <- py_len z ;;
    z <- (if (n =? 1)%nat then m <- py_len a0 ;; np_repeat z m else Ok z) ;;
    (* for i, aa, bb, zz in enumerate(zip(a[0], b[0], z)): *)
    b0 <- py_getitem b 0 ;;
    la <- py_iter a0 ;;
    lb <- py_iter b0 ;;
    lz <- py_iter z ;;
    r <- for_each (enumerate (zip3 la lb lz)) (x, y, out)
           (λ item '(x, y, out),
              targets <- unpack 4 item ;;
              match targets with
              | [i; aa; bb; zz] =>
                  x <- list_setitem x 0 aa ;;
                  x <- list_setitem x 1 aa ;;
                  y <- list_setitem y 0 bb ;;
                  y <- list_setitem y 1 bb ;;
                  h <- hyperReg x y zz ;;
                  h <- py_float h ;;
                  out <- nd_setitem out i h ;;
                  Ok (x, y, out)
              | _ => Raise (ValueError "unpack")
              end) ;;
    Ok (r.2)
  else if has_len z then
    (* a_s = np.ndarray((1,), dtype=object); a_s[0] = a; likewise b_s *)
    let a_s := ObjArray [a] in
    let b_s := ObjArray [b] in
    r <- hyperRegA a_s b_s z ;;
    astype_float r
  else
    hyperReg a b z.

End Helpers.

(** ** The class [IdealAnalytic]

    An instance is its attribute dictionary.  An attribute that is not in
    the dictionary is looked up in the class: the properties defined here
    are the definitions below, those of the parent class are [inherited]. *)

Abbreviation obj := (gmap string value).

Definition is_None (v : value) : bool :=
  match v with
  | PyNone => true
  | _ => false
  end.

(** [None in l]. *)
Definition None_in (l : list value) : bool := existsb is_None l.

(** [l.remove(None)]: the first [None] goes. *)
Fixpoint list_remove_None (l : list value) : result (list value) :=
  match l with
  | [] => Raise (ValueError "list.remove(x): x not in list")
  | x :: r => if is_None x then Ok r
              else r' <- list_remove_None r ;; Ok (x :: r')
  end.

(** [while None in l: l.remove(None)]. *)
Equations? while_None_in (l : list value) : result (list value)
  by wf (length l) lt :=
  while_None_in l with Equations.Prop.Logic.inspect (None_in l) := {
    | exist _ false _ => Ok l
    | exist _ true _ with Equations.Prop.Logic.inspect (list_remove_None l) := {
        | exist _ (Ok l') Hr => while_None_in l'
        | exist _ (Raise e) _ => Raise e } }.
Proof.
  clear -Hr. revert l' Hr.
  induction l as [|x r IH]; intros l'; simpl; [discriminate|].
  destruct (is_None x).
  - intros [= <-]. lia.
  - destruct (list_remove_None r) as [r'|e]; simpl; [|discriminate].
    intros [= <-]. simpl. specialize (IH r' eq_refl). lia.
Qed.

Section IdealAnalytic.
Context `{Provider}.

(** [self.name]. *)
Definition getattr (self : obj) (name : string) : result value :=
  match self !! name with
  | Some v => Ok v
  | None => inherited name self
  end.

(** A [cached_property]: once computed the value sits in the instance
    dictionary and is read from there.  The bodies below only read the
    instance, so a body evaluated again gives the value that was stored:
    the store itself is not threaded. *)
Definition cached (name : string) (body : obj → result value)
    (self : obj) : result value :=
  match self !! name with
  | Some v => Ok v
  | None => body self
  end.

Definition log_mmin_msg : string :=
  "log_mmin needs to be specified in this class".

(** [__init__(self, lnA=-44, V=200.0 ** 3, logHsd=None, alphad=None,
    betad=None, **kwargs)], called with the keyword arguments [kw]. *)
Definition __init__ (kw : obj) : result obj :=
  let lnA := default (PyInt (-44)) (kw !! "lnA") in
  let V := default (PyFloat 8000000) (kw !! "V") in
  let logHsd := default PyNone (kw !! "logHsd") in
  let alphad := default PyNone (kw !! "alphad") in
  let betad := default PyNone (kw !! "betad") in
  let kwargs :=
    delete "betad" (delete "alphad" (delete "logHsd" (delete "V" (delete "lnA" kw)))) in
  match kwargs !! "log_mmin" with
  | None => Raise (ValueError log_mmin_msg)
  | Some log_mmin =>
      let kwargs := delete "log_mmin" kwargs in
      logm <- np_array (PyList [log_mmin]) ;;
      self <- super_init logm kwargs ;;
      let self := <["V" := V]> self in
      let self := <["lnA" := lnA]> self in
      (* Set data parameters *)
      v <- py_or logHsd (getattr self "logHs") ;;
      let self := <["logHsd" := v]> self in
      v <- py_or alphad (getattr self "alpha") ;;
      let self := <["alphad" := v]> self in
      v <- py_or betad (getattr self "beta") ;;
      let self := <["betad" := v]> self in
      ad <- getattr self "alphad" ;;
      sc <- getattr self "scale" ;;
      v <- py_add ad sc ;;
      let self := <["_alphad_s" := v]> self in
      sh <- mapM (λ q, v <- getattr self q ;; Ok (getattr_len v))
                 ["mmin"; "logHs"; "alpha"; "beta"; "scale"] ;;
      sh <- while_None_in sh ;;
      Ok (<["_shape" := PyList sh]> self)
  end.

Definition Hsd : obj → result value := cached "Hsd" (λ self,
  logHsd <- getattr self "logHsd" ;;
  py_pow (PyInt 10) logHsd).

(** *** Basic unit quantities *)

Definition _yd : obj → result value := cached "_yd" (λ self,
  mmin <- getattr self "mmin" ;;
  hsd <- Hsd self ;;
  py_div mmin hsd).

Definition _xd : obj → result value := cached "_xd" (λ self,
  yd <- _yd self ;;
  betad <- getattr self "betad" ;;
  py_pow yd betad).

Definition _zd : obj → result value := cached "_zd" (λ self,
  ad <- getattr self "_alphad_s" ;;
  n <- py_add ad (PyInt 1) ;;
  betad <- getattr self "betad" ;;
  py_div n betad).

(** *** Cached special functions (data counterparts) *)

Definition _gammazd : obj → result value := cached "_gammazd" (λ self,
  zd <- _zd self ;;
  gamma zd).

Definition _gammainc_zxd : obj → result value := cached "_gammainc_zxd" (λ self,
  zd <- _zd self ;;
  xd <- _xd self ;;
  gammainc zd xd).

Definition _gammainc_z1x : obj → result value := cached "_gammainc_z1x" (λ self,
  z <- getattr self "_z" ;;
  z1 <- py_add z (PyInt 1) ;;
  x <- getattr self "_x" ;;
  gammainc z1 x).

(** [self._zd + self.beta / self.betad]. *)
Definition zd_shifted (self : obj) : result value :=
  zd <- _zd self ;;
  beta <- getattr self "beta" ;;
  betad <- getattr self "betad" ;;
  r <- py_div beta betad ;;
  py_add zd r.

Definition _gammainc_z1xd : obj → result value := cached "_gammainc_z1xd" (λ self,
  z1 <- zd_shifted self ;;
  xd <- _xd self ;;
  gammainc z1 xd).

Definition _G1d : obj → result value := cached "_G1d" (λ self,
  zd <- _zd self ;;
  xd <- _xd self ;;
  m <- _meijerg self (PyList [PyList []; PyList [PyInt 1; PyInt 1]])
                     (PyList [PyList [PyInt 0; PyInt 0; zd]; PyList []]) xd ;;
  g <- _gammainc_zxd self ;;
  py_div m g).

Definition _G1d_p1 : obj → result value := cached "_G1d_p1" (λ self,
  z1 <- zd_shifted self ;;
  xd <- _xd self ;;
  m <- _meijerg self (PyList [PyList []; PyList [PyInt 1; PyInt 1]])
                     (PyList [PyList [PyInt 0; PyInt 0; z1]; PyList []]) xd ;;
  g <- _gammainc_z1xd self ;;
  py_div m g).

Definition _G2d : obj → result value := cached "_G2d" (λ self,
  zd <- _zd self ;;
  xd <- _xd self ;;
  m <- _meijerg self (PyList [PyList []; PyList [PyInt 1; PyInt 1; PyInt 1]])
                     (PyList [PyList [PyInt 0; PyInt 0; PyInt 0; zd]; PyList []]) xd ;;
  g <- _gammainc_zxd self ;;
  py_div m g).

Definition _G2d_p1 : obj → result value := cached "_G2d_p1" (λ self,
  z1 <- zd_shifted self ;;
  xd <- _xd self ;;
  m <- _meijerg self (PyList [PyList []; PyList [PyInt 1; PyInt 1; PyInt 1]])
                     (PyList [PyList [PyInt 0; PyInt 0; PyInt 0; z1]; PyList []]) xd ;;
  g <- _gammainc_z1xd self ;;
  py_div m g).

Definition _Gbard : obj → result value := cached "_Gbard" (λ self,
  g1 <- _G1d self ;;
  xd <- _xd self ;;
  lx <- np_log xd ;;
  a <- py_mul g1 lx ;;
  g2 <- _G2d self ;;
  b <- py_mul (PyInt 2) g2 ;;
  py_add a b).

Definition _Gbard_p1 : obj → result value := cached "_Gbard_p1" (λ self,
  g1 <- _G1d_p1 self ;;
  xd <- _xd self ;;
  lx <- np_log xd ;;
  a <- py_mul g1 lx ;;
  g2 <- _G2d_p1 self ;;
  b <- py_mul (PyInt 2) g2 ;;
  py_add a b).

(** *** Basic MRP quantities *)

Definition _gd : obj → result value := cached "_gd" (λ self,
  mmin <- getattr self "mmin" ;;
  logHsd <- getattr self "logHsd" ;;
  ad <- getattr self "_alphad_s" ;;
  betad <- getattr self "betad" ;;
  mrp_shape mmin logHsd ad betad).

Definition _phid : obj → result value := cached "_phid" (λ self,
  yd <- _yd self ;;
  gd <- _gd self ;;
  a <- py_mul yd gd ;;
  g <- _gammainc_zxd self ;;
  py_div a g).

Definition _qd : obj → result value := cached "_qd" (λ self,
  zd <- _zd self ;;
  xd <- _xd self ;;
  g <- gammainc zd xd ;;
  hsd <- Hsd self ;;
  py_mul g hsd).

Definition _qd_nos : obj → result value := cached "_qd_nos" (λ self,
  alphad <- getattr self "alphad" ;;
  n <- py_add alphad (PyInt 1) ;;
  betad <- getattr self "betad" ;;
  z <- py_div n betad ;;
  xd <- _xd self ;;
  g <- gammainc z xd ;;
  hsd <- Hsd self ;;
  py_mul g hsd).

Definition _lngd : obj → result value := cached "_lngd" (λ self,
  mmin <- getattr self "mmin" ;;
  logHsd <- getattr self "logHsd" ;;
  ad <- getattr self "_alphad_s" ;;
  betad <- getattr self "betad" ;;
  ln_mrp_shape mmin logHsd ad betad).

(** *** Basic likelihood *)

Definition _t : obj → result value := cached "_t" (λ self,
  a <- getattr self "_alpha_s" ;;
  ad <- getattr self "_alphad_s" ;;
  zd <- _zd self ;;
  pg <- polygamma (PyInt 0) zd ;;
  hsd <- Hsd self ;;
  l <- py_mul a hsd ;;
  betad <- getattr self "betad" ;;
  l <- py_div l betad ;;
  g <- _gammazd self ;;
  l <- py_mul l g ;;
  yd <- _yd self ;;
  e <- py_add ad (PyInt 1) ;;
  r <- py_pow yd e ;;
  g <- _gammazd self ;;
  r <- py_mul r g ;;
  z1 <- py_add zd (PyInt 1) ;;
  z1' <- py_add zd (PyInt 1) ;;
  xd <- _xd self ;;
  mx <- py_neg xd ;;
  h <- _hyperReg (PyList [zd; zd]) (PyList [z1; z1']) mx ;;
  r <- py_mul r h ;;
  r <- py_add r pg ;;
  betad <- getattr self "betad" ;;
  yd <- _yd self ;;
  ly <- np_log yd ;;
  s <- py_mul betad ly ;;
  r <- py_sub r s ;;
  py_mul l r).

Definition _u : obj → result value := cached "_u" (λ self,
  hsd <- Hsd self ;;
  hs <- getattr self "Hs" ;;
  q <- py_div hsd hs ;;
  beta <- getattr self "beta" ;;
  a <- py_pow q beta ;;
  hsd <- Hsd self ;;
  g <- _gammainc_z1xd self ;;
  b <- py_mul hsd g ;;
  xd <- _xd self ;;
  beta <- getattr self "beta" ;;
  betad <- getattr self "betad" ;;
  e <- py_div beta betad ;;
  p <- py_pow xd e ;;
  qd <- _qd self ;;
  c <- py_mul p qd ;;
  d <- py_sub b c ;;
  py_mul a d).

Definition _F : obj → result value := cached "_F" (λ self,
  qd <- _qd self ;;
  lng <- getattr self "_lng" ;;
  q <- getattr self "_q" ;;
  lq <- np_log q ;;
  d <- py_sub lng lq ;;
  m <- py_mul qd d ;;
  t <- _t self ;;
  s <- py_add m t ;;
  u <- _u self ;;
  r <- py_sub s u ;;
  np_squeeze r).

(** [self.V * np.exp(self.lnA) * (self._qd_nos / self._qd)], the factor
    that [lnL] and [hessian] share. *)
Definition prefactor (self : obj) : result value :=
  V <- getattr self "V" ;;
  lnA <- getattr self "lnA" ;;
  e <- np_exp lnA ;;
  a <- py_mul V e ;;
  qn <- _qd_nos self ;;
  qd <- _qd self ;;
  r <- py_div qn qd ;;
  py_mul a r.

Definition lnL : obj → result value := cached "lnL" (λ self,
  p <- prefactor self ;;
  f <- _F self ;;
  py_mul p f).

(** *** Simple derivatives: u'() *)

Definition _u_a : obj → result value := cached "_u_a" (λ _, Ok (PyInt 0)).
Definition _u_a_a : obj → result value := cached "_u_a_a" (λ _, Ok (PyInt 0)).
Definition _u_h_a : obj → result value := cached "_u_h_a" (λ _, Ok (PyInt 0)).
Definition _u_a_b : obj → result value := cached "_u_a_b" (λ _, Ok (PyInt 0)).

Definition _u_h : obj → result value := cached "_u_h" (λ self,
  beta <- getattr self "beta" ;;
  nb <- py_neg beta ;;
  u <- _u self ;;
  r <- py_mul nb u ;;
  l <- ln10 ;;
  py_mul r l).

Definition _u_h_h : obj → result value := cached "_u_h_h" (λ self,
  l <- ln10 ;;
  nl <- py_neg l ;;
  beta <- getattr self "beta" ;;
  r <- py_mul nl beta ;;
  uh <- _u_h self ;;
  py_mul r uh).

Definition _u_b : obj → result value := cached "_u_b" (λ self,
  hsd <- Hsd self ;;
  hs <- getattr self "Hs" ;;
  q <- py_div hsd hs ;;
  lq <- np_log q ;;
  u <- _u self ;;
  a <- py_mul lq u ;;
  hsd <- Hsd self ;;
  hs <- getattr self "Hs" ;;
  q <- py_div hsd hs ;;
  beta <- getattr self "beta" ;;
  b <- py_pow q beta ;;
  u <- _u self ;;
  xd <- _xd self ;;
  lx <- np_log xd ;;
  c <- py_mul u lx ;;
  c <- py_div c b ;;
  hsd <- Hsd self ;;
  g <- _gammainc_z1xd self ;;
  d <- py_mul hsd g ;;
  g1 <- _G1d_p1 self ;;
  d <- py_mul d g1 ;;
  betad <- getattr self "betad" ;;
  i <- py_div (PyFloat 1) betad ;;
  cd <- py_add c d ;;
  r <- py_mul i cd ;;
  r <- py_mul b r ;;
  py_add a r).

Definition _u_h_b : obj → result value := cached "_u_h_b" (λ self,
  l <- ln10 ;;
  nl <- py_neg l ;;
  u <- _u self ;;
  beta <- getattr self "beta" ;;
  ub <- _u_b self ;;
  r <- py_mul beta ub ;;
  r <- py_add u r ;;
  py_mul nl r).

Definition _u_b_b : obj → result value := cached "_u_b_b" (λ self,
  hsd <- Hsd self ;;
  hs <- getattr self "Hs" ;;
  hfrac <- py_div hsd hs ;;
  betad <- getattr self "betad" ;;
  a <- py_div (PyInt 1) betad ;;
  ub <- _u_b self ;;
  betad <- getattr self "betad" ;;
  lh <- np_log hfrac ;;
  b1 <- py_mul betad lh ;;
  xd <- _xd self ;;
  lx <- np_log xd ;;
  b2 <- py_add b1 lx ;;
  b <- py_mul ub b2 ;;
  lh <- np_log hfrac ;;
  hsd <- Hsd self ;;
  c <- py_mul lh hsd ;;
  g1 <- _G1d_p1 self ;;
  c <- py_mul c g1 ;;
  g <- _gammainc_z1xd self ;;
  c <- py_mul c g ;;
  beta <- getattr self "beta" ;;
  hb <- py_pow hfrac beta ;;
  c <- py_mul c hb ;;
  hsd <- Hsd self ;;
  beta <- getattr self "beta" ;;
  hb <- py_pow hfrac beta ;;
  d <- py_mul hsd hb ;;
  g <- _gammainc_z1xd self ;;
  d <- py_mul d g ;;
  gb <- _Gbard_p1 self ;;
  d <- py_mul d gb ;;
  betad <- getattr self "betad" ;;
  d <- py_div d betad ;;
  s <- py_add b c ;;
  s <- py_add s d ;;
  py_mul a s).

(** *** Simple derivatives: t'() *)

Definition _t_a : obj → result value := cached "_t_a" (λ self,
  t <- _t self ;;
  a <- getattr self "_alpha_s" ;;
  py_div t a).

Definition _t_a_a : obj → result value := cached "_t_a_a" (λ _, Ok (PyInt 0)).
Definition _t_h_a : obj → result value := cached "_t_h_a" (λ _, Ok (PyInt 0)).
Definition _t_a_b : obj → result value := cached "_t_a_b" (λ _, Ok (PyInt 0)).
Definition _t_h : obj → result value := cached "_t_h" (λ _, Ok (PyInt 0)).
Definition _t_h_h : obj → result value := cached "_t_h_h" (λ _, Ok (PyInt 0)).
Definition _t_b : obj → result value := cached "_t_b" (λ _, Ok (PyInt 0)).
Definition _t_h_b : obj → result value := cached "_t_h_b" (λ _, Ok (PyInt 0)).
Definition _t_b_b : obj → result value := cached "_t_b_b" (λ _, Ok (PyInt 0)).

(** *** Jacobians and Hessians *)

(** The properties of this class whose names [_F_x] and [_F_x_y] can
    form: those that start with [_u_] or [_t_]. *)
Definition derivative_properties : list (string * (obj → result value)) :=
  [ ("_u_a", _u_a); ("_u_a_a", _u_a_a); ("_u_h_a", _u_h_a); ("_u_a_b", _u_a_b);
    ("_u_h", _u_h); ("_u_h_h", _u_h_h); ("_u_b", _u_b); ("_u_h_b", _u_h_b);
    ("_u_b_b", _u_b_b);
    ("_t_a", _t_a); ("_t_a_a", _t_a_a); ("_t_h_a", _t_h_a); ("_t_a_b", _t_a_b);
    ("_t_h", _t_h); ("_t_h_h", _t_h_h); ("_t_b", _t_b); ("_t_h_b", _t_h_b);
    ("_t_b_b", _t_b_b) ].

Fixpoint assoc {A} (name : string) (l : list (string * A)) : option A :=
  match l with
  | [] => None
  | (k, v) :: r => if String.eqb k name then Some v else assoc name r
  end.

(** [getattr(self, name)] for a name built at run time. *)
Definition getattr_dyn (self : obj) (name : string) : result value :=
  match assoc name derivative_properties with
  | Some property => property self
  | None => getattr self name
  end.

(** ["_lng_%s" % x] and ["_lng_%s_%s" % (x, y)]. *)
Definition fmt1 (prefix x : string) : string := prefix +:+ x.
Definition fmt2 (prefix x y : string) : string := prefix +:+ x +:+ "_" +:+ y.

Definition _F_x (self : obj) (x : string) : result value :=
  gx <- getattr_dyn self (fmt1 "_lng_" x) ;;
  qx <- getattr_dyn self (fmt1 "_lnq_" x) ;;
  ux <- getattr_dyn self (fmt1 "_u_" x) ;;
  tx <- getattr_dyn self (fmt1 "_t_" x) ;;
  qd <- _qd self ;;
  d <- py_sub gx qx ;;
  m <- py_mul qd d ;;
  s <- py_add m tx ;;
  py_sub s ux.

Definition _F_x_y (self : obj) (x y : string) : result value :=
  let '(x, y) :=
    if String.eqb y "h" || (String.eqb y "a" && String.eqb x "b")
    then (y, x) else (x, y) in
  lngxy <- getattr_dyn self (fmt2 "_lng_" x y) ;;
  lnqxy <- getattr_dyn self (fmt2 "_lnq_" x y) ;;
  uxy <- getattr_dyn self (fmt2 "_u_" x y) ;;
  qd <- _qd self ;;
  d <- py_sub lngxy lnqxy ;;
  m <- py_mul qd d ;;
  py_sub m uxy.

(** [[[hh, ha, hb], [ha, aa, ab], [hb, ab, bb]]]. *)
Definition sym3 (hh ha hb aa ab bb : value) : value :=
  PyList [PyList [hh; ha; hb]; PyList [ha; aa; ab]; PyList [hb; ab; bb]].

(** [np.array([[hh[i], ha[i], hb[i]], [ha[i], aa[i], ab[i]],
    [hb[i], ab[i], bb[i]]])]; the entries are read in the order written. *)
Definition sym3_at (hh ha hb aa ab bb : value) (i : nat) : result value :=
  hh0 <- py_getitem hh i ;; ha0 <- py_getitem ha i ;; hb0 <- py_getitem hb i ;;
  ha1 <- py_getitem ha i ;; aa1 <- py_getitem aa i ;; ab1 <- py_getitem ab i ;;
  hb2 <- py_getitem hb i ;; ab2 <- py_getitem ab i ;; bb2 <- py_getitem bb i ;;
  np_array (PyList [PyList [hh0; ha0; hb0]; PyList [ha1; aa1; ab1];
                    PyList [hb2; ab2; bb2]]).

Definition hessian : obj → result value := cached "hessian" (λ self,
  hh <- _F_x_y self "h" "h" ;;
  ha <- _F_x_y self "h" "a" ;;
  hb <- _F_x_y self "h" "b" ;;
  aa <- _F_x_y self "a" "a" ;;
  ab <- _F_x_y self "a" "b" ;;
  bb <- _F_x_y self "b" "b" ;;
  A <- prefactor self ;;
  sh <- getattr self "_shape" ;;
  batched <- truthy sh ;;
  x <- (if batched then
          try_except
            (n <- py_len hh ;;
             ms <- mapM (sym3_at hh ha hb aa ab bb) (seq 0 n) ;;
             m <- np_array (PyList ms) ;;
             py_mul A m)
            (n <- py_len hh ;;
             ms <- mapM (λ i, Ai <- py_getitem A i ;;
                              m <- sym3_at hh ha hb aa ab bb i ;;
                              py_mul Ai m) (seq 0 n) ;;
             np_array (PyList ms))
        else
          m <- np_array (sym3 hh ha hb aa ab bb) ;;
          py_mul A m) ;;
  np_squeeze x).

Definition cov : obj → result value := cached "cov" (λ self,
  sh <- getattr self "_shape" ;;
  batched <- truthy sh ;;
  if batched then
    hs <- hessian self ;;
    hs <- py_iter hs ;;
    cs <- mapM (λ h, nh <- py_neg h ;; np_linalg_inv nh) hs ;;
    np_array (PyList cs)
  else
    h <- hessian self ;;
    nh <- py_neg h ;;
    np_linalg_inv nh).


End IdealAnalytic.

(** * [physical_dependence.py]

    The four fitting formulae for the MRP parameters and [mrp_b13], which
    hands them to [core.mrp] (a parameter here, as [core] is not part of
    the module).

    The keyword arguments of a call [f(z, Om0, sig8, **kw)] are the
    entries of the dictionary [kw] in its iteration order. *)

Abbreviation kwargs := (list (string * value)).

(** The binding of [**kw] to the parameters [params] of [fname], of which
    [bound] are already bound: CPython takes the entries one by one and
    stops at the first that names no parameter or a bound one. *)
Fixpoint bind_kwargs (fname : string) (params bound : list string) (kw : kwargs)
  : result unit :=
  match kw with
  | [] => Ok tt
  | (k, _) :: rest =>
      if negb (bool_decide (k ∈ params)) then
        Raise (TypeError (fname +:+ "() got an unexpected keyword argument '" +:+ k +:+ "'"))
      else if bool_decide (k ∈ bound) then
        Raise (TypeError (fname +:+ "() got multiple values for keyword argument '" +:+ k +:+ "'"))
      else bind_kwargs fname params (k :: bound) rest
  end.

(** The value of a parameter: the keyword argument, or the default. *)
Definition arg (kw : kwargs) (name : string) (dflt : value) : result value :=
  Ok (default dflt (assoc name kw)).

(** Python's expressions: the left operand is evaluated, then the right
    one, then the operation is applied. *)
Definition lift2 (op : value → value → result value) (x y : result value)
  : result value :=
  a <- x ;; b <- y ;; op a b.

Definition py_int (n : Z) : result value := Ok (PyInt n).

Declare Scope py_scope.
Delimit Scope py_scope with py.
Notation "x + y" := (lift2 py_add x y) : py_scope.
Notation "x - y" := (lift2 py_sub x y) : py_scope.
Notation "x * y" := (lift2 py_mul x y) : py_scope.
Notation "x ** y" := (lift2 py_pow x y) (at level 30, right associativity) : py_scope.

(** A decimal literal is the binary64 number nearest to it, in Python as
    here. *)
#[local] Set Warnings "-inexact-float".

Definition logHs_b13_params : list string :=
  ["z"; "Om0"; "sig8"; "mu"; "sd"; "a"; "b"; "c"; "d"; "e"; "f"; "g"; "h"].
Definition alpha_b13_params : list string :=
  ["z"; "Om0"; "sig8"; "mu"; "sd"; "a"; "b"; "c"; "d"; "e"; "f"; "g"].
Definition beta_b13_params : list string :=
  ["z"; "Om0"; "sig8"; "mu"; "sd"; "a"; "b"; "c"; "d"; "e"; "f"; "g"].
Definition logA_b13_params : list string :=
  ["z"; "Om0"; "sig8"; "mu"; "sd"; "a"; "b"; "c"; "d"; "e"; "f"].

Section PhysicalDependence.
Context `{Provider}.

(** [core.mrp(m, hs, alpha, beta, mmin, mmax, norm, log, **Arhoc_kw)]. *)
Variable mrp :
  value → value → value → value → value → value → value → value → kwargs → result value.

(** [logHs_b13(z, Om0, sig8, **kw)]. *)
Definition logHs_b13 (z Om0 sig8 : value) (kw : kwargs) : result value :=
  _ <- bind_kwargs "logHs_b13" logHs_b13_params ["z"; "Om0"; "sig8"] kw ;;
  let z := Ok z in let Om0 := Ok Om0 in let sig8 := Ok sig8 in
  let mu := arg kw "mu" (PyFloat 12.214) in
  let sd := arg kw "sd" (PyFloat 1.6385) in
  let a := arg kw "a" (PyFloat 0.058562) in
  let b := arg kw "b" (PyFloat 1.4394) in
  let c := arg kw "c" (PyFloat 0.39111) in
  let d := arg kw "d" (PyFloat 0.11159) in
  let e := arg kw "e" (PyFloat 0.056010) in
  let f := arg kw "f" (PyFloat 0.42444) in
  let g := arg kw "g" (PyFloat 0.90369) in
  let h := arg kw "h" (PyFloat 0.0029417) in
  (mu + sd * (a + b * sig8 + c * Om0 + d * sig8 * z + e * z ** py_int 2
              + f * sig8 * Om0 * z - g * z - h * z ** py_int 3))%py.

(** [alpha_b13(z, Om0, sig8, **kw)]. *)
Definition alpha_b13 (z Om0 sig8 : value) (kw : kwargs) : result value :=
  _ <- bind_kwargs "alpha_b13" alpha_b13_params ["z"; "Om0"; "sig8"] kw ;;
  let z := Ok z in let Om0 := Ok Om0 in let sig8 := Ok sig8 in
  let mu := arg kw "mu" (PyFloat (-1.9097)) in
  let sd := arg kw "sd" (PyFloat 0.026906) in
  let a := arg kw "a" (PyFloat 2.6172) in
  let b := arg kw "b" (PyFloat 2.06023) in
  let c := arg kw "c" (PyFloat 1.4791) in
  let d := arg kw "d" (PyFloat 2.2142) in
  let e := arg kw "e" (PyFloat 0.53400) in
  let f := arg kw "f" (PyFloat 2.70981) in
  let g := arg kw "g" (PyFloat 0.19690) in
  (mu + sd * (a * Om0 + b * sig8 + c * d ** Om0 * e ** z - f - g * z))%py.

(** [beta_b13(z, Om0, sig8, **kw)]. *)
Definition beta_b13 (z Om0 sig8 : value) (kw : kwargs) : result value :=
  _ <- bind_kwargs "beta_b13" beta_b13_params ["z"; "Om0"; "sig8"] kw ;;
  let z := Ok z in let Om0 := Ok Om0 in let sig8 := Ok sig8 in
  let mu := arg kw "mu" (PyFloat 0.49961) in
  let sd := arg kw "sd" (PyFloat 0.12913) in
  let a := arg kw "a" (PyFloat 7.5217) in
  let b := arg kw "b" (PyFloat 0.18866) in
  let c := arg kw "c" (PyFloat 0.36891) in
  let d := arg kw "d" (PyFloat 0.071716) in
  let e := arg kw "e" (PyFloat 0.0029092) in
  let f := arg kw "f" (PyFloat 3.4453) in
  let g := arg kw "g" (PyFloat 0.71052) in
  (mu + sd * (a * sig8 * Om0 - b - c * z - d * e ** z - f * Om0 * z * g ** z))%py.

(** [logA_b13(z, Om0, sig8, **kw)]. *)
Definition logA_b13 (z Om0 sig8 : value) (kw : kwargs) : result value :=
  _ <- bind_kwargs "logA_b13" logA_b13_params ["z"; "Om0"; "sig8"] kw ;;
  let z := Ok z in let Om0 := Ok Om0 in let sig8 := Ok sig8 in
  let mu := arg kw "mu" (PyFloat (-33.268)) in
  let sd := arg kw "sd" (PyFloat 7.3593) in
  let a := arg kw "a" (PyFloat 0.0029187) in
  let b := arg kw "b" (PyFloat 0.15541) in
  let c := arg kw "c" (PyFloat 1.4657) in
  let d := arg kw "d" (PyFloat 0.055025) in
  let e := arg kw "e" (PyFloat 0.24068) in
  let f := arg kw "f" (PyFloat 0.33620) in
  (mu + sd * (z + a * z ** py_int 3 - b - c * sig8 - d * z ** py_int 2
              - e * sig8 * z - f * Om0 * z))%py.

(** [mrp_params_b13(z, Om0, sig8, Hs_kw, alpha_kw, beta_kw, logA_kw)]: the
    tuple of the four parameters. *)
Definition mrp_params_b13 (z Om0 sig8 : value) (Hs_kw alpha_kw beta_kw logA_kw : kwargs)
  : result (value * value * value * value) :=
  hs <- logHs_b13 z Om0 sig8 Hs_kw ;;
  alpha <- alpha_b13 z Om0 sig8 alpha_kw ;;
  beta <- beta_b13 z Om0 sig8 beta_kw ;;
  logA <- logA_b13 z Om0 sig8 logA_kw ;;
  Ok (hs, alpha, beta, logA).

(** [mrp_b13(m, z, Om0, sig8, Hs_kw, alpha_kw, beta_kw, logA_kw, mmin, mmax,
    norm, log, **Arhoc_kw)]. *)
Definition mrp_b13 (m z Om0 sig8 : value) (Hs_kw alpha_kw beta_kw logA_kw : kwargs)
    (mmin mmax norm log : value) (Arhoc_kw : kwargs) : result value :=
  p <- mrp_params_b13 z Om0 sig8 beta_kw alpha_kw Hs_kw logA_kw ;;
  let '(hs, alpha, beta, logA) := p in
  norm <- (if is_None norm then np_exp logA else Ok norm) ;;
  mrp m hs alpha beta mmin mmax norm log Arhoc_kw.

End PhysicalDependence.

(** * The vocabulary of the statements *)

(** The result is not the exception [e]. *)
Definition avoids {A} (e : exn) (r : result A) : Prop := r ≠ Raise e.

(** The exception of line 59. *)
Definition mmin_error : exn := ValueError log_mmin_msg.

(** The keyword arguments that reach the parent constructor. *)
Definition parent_kwargs (kw : obj) : obj :=
  delete "log_mmin"
    (delete "betad" (delete "alphad" (delete "logHsd" (delete "V" (delete "lnA" kw))))).

(** The instance once [V] and [lnA] are set. *)
Definition with_V_lnA (kw s0 : obj) : obj :=
  <["lnA" := default (PyInt (-44)) (kw !! "lnA")]>
    (<["V" := default (PyFloat 8000000) (kw !! "V")]> s0).

(** A 1-d array. *)
Definition vec (l : list float) : value := NdArray (Ar (map Sc l)).

(** The evaluation point of a batched call: a number, or an array of one
    entry or of one entry per batch element. *)
Definition batch_z (n : nat) (z : value) : Prop :=
  (∃ x, z = PyFloat x ∨ z = NpFloat x) ∨
  (∃ lz, z = vec lz ∧ (length lz = 1 ∨ length lz = n)).

(** The message of the failing tuple unpacking of line 109. *)
Definition unpack_msg : string := "need more than 2 values to unpack".

(** A Python or numpy number and the float it stands for. *)
Inductive is_scalar : value → float → Prop :=
  | scalar_int n x : int_to_float n = Ok x → is_scalar (PyInt n) x
  | scalar_float x : is_scalar (PyFloat x) x
  | scalar_np x : is_scalar (NpFloat x) x.


(** The six second partials of [F] for one parameter set. *)
Record partials : Type := Partials {
  p_hh : float; p_ha : float; p_hb : float;
  p_aa : float; p_ab : float; p_bb : float
}.

(** [[[hh, ha, hb], [ha, aa, ab], [hb, ab, bb]]] as an array. *)
Definition sym_nd (p : partials) : nd :=
  Ar [Ar [Sc (p_hh p); Sc (p_ha p); Sc (p_hb p)];
      Ar [Sc (p_ha p); Sc (p_aa p); Sc (p_ab p)];
      Ar [Sc (p_hb p); Sc (p_ab p); Sc (p_bb p)]].

(** The matrix [A_i * [[hh, ha, hb], [ha, aa, ab], [hb, ab, bb]]] that the
    Hessian of a parameter set is meant to be. *)
Definition scaled_sym (A : float) (p : partials) : nd :=
  let s x := Sc (PrimFloat.mul A x) in
  Ar [Ar [s (p_hh p); s (p_ha p); s (p_hb p)];
      Ar [s (p_ha p); s (p_aa p); s (p_ab p)];
      Ar [s (p_hb p); s (p_ab p); s (p_bb p)]].

(** The same entries with column [k] scaled by [A_k]. *)
Definition columns_scaled (A0 A1 A2 : float) (p : partials) : nd :=
  let s A x := Sc (PrimFloat.mul A x) in
  Ar [Ar [s A0 (p_hh p); s A1 (p_ha p); s A2 (p_hb p)];
      Ar [s A0 (p_ha p); s A1 (p_aa p); s A2 (p_ab p)];
      Ar [s A0 (p_hb p); s A1 (p_ab p); s A2 (p_bb p)]].

(** The entry [a[i][j][k]]. *)
Definition nd_at3 (a : nd) (i j k : nat) : option float :=
  match a with
  | Ar l =>
      match l !! i with
      | Some (Ar r) =>
          match r !! j with
          | Some (Ar c) =>
              match c !! k with
              | Some (Sc x) => Some x
              | _ => None
              end
          | _ => None
          end
      | _ => None
      end
  | _ => None
  end.

(** The message of [np.linalg.inv] on an array of one dimension. *)
Definition inv_1d_msg : string :=
  "1-dimensional array given. Array must be at least two-dimensional".





Section Statements.
Context `{Provider}.

(** What the parent constructor returned in the construction from [kw]. *)
Definition parent_instance (kw s0 : obj) : Prop :=
  ∃ m logm, kw !! "log_mmin" = Some m ∧ np_array (PyList [m]) = Ok logm ∧
            super_init logm (parent_kwargs kw) = Ok s0.



(** The second partials of a batch, as [hessian] reads them. *)
Definition partials_are (o : obj) (ps : list partials) : Prop :=
  _F_x_y o "h" "h" = Ok (vec (map p_hh ps)) ∧
  _F_x_y o "h" "a" = Ok (vec (map p_ha ps)) ∧
  _F_x_y o "h" "b" = Ok (vec (map p_hb ps)) ∧
  _F_x_y o "a" "a" = Ok (vec (map p_aa ps)) ∧
  _F_x_y o "a" "b" = Ok (vec (map p_ab ps)) ∧
  _F_x_y o "b" "b" = Ok (vec (map p_bb ps)).

(** The second partials and the factor of a batch, per element. *)
Definition batch_partials_are (o : obj) (cs : list (float * partials)) : Prop :=
  prefactor o = Ok (vec (map fst cs)) ∧ partials_are o (map snd cs).

End Statements.

(** The names whose [__len__] the constructor collects in [_shape]. *)
Definition shape_names : list string := ["mmin"; "logHs"; "alpha"; "beta"; "scale"].

(** The bound methods [v.__len__] of the values that have one. *)
Definition len_methods (vs : list value) : list value :=
  map (λ v, PyMethod v "__len__") (filter (λ v, has_len v) vs).

(** The stored attributes of the names [qs]. *)
Definition stored (s : obj) (qs : list string) (vs : list value) : Prop :=
  Forall2 (λ q v, s !! q = Some v) qs vs.

(** A parameter as the class takes it: a number or a 1-d array. *)
Inductive is_param : value → Prop :=
  | param_int n : is_param (PyInt n)
  | param_float x : is_param (PyFloat x)
  | param_np x : is_param (NpFloat x)
  | param_vec l : is_param (vec l).

Section UnitQuantities.
Context `{Provider}.

(** [10**logHsd] and [(mmin / Hsd)**betad] in numpy's arithmetic. *)
Definition Hsd_value (h : float) : float := npy_pow 10 h.

Definition xd_value (m h b : float) : float :=
  npy_pow (PrimFloat.div m (Hsd_value h)) b.

End UnitQuantities.

(** What [_F_x("h")] reads, for one parameter set. *)
Record h_terms : Type := HTerms {
  h_qd : float;     (* _qd *)
  h_lng : float;    (* _lng_h *)
  h_lnq : float;    (* _lnq_h *)
  h_u : float       (* _u_h *)
}.

(** [q_d * (g_h - q_h) + 0 - u_h]. *)
Definition F_h_value (c : h_terms) : float :=
  PrimFloat.sub
    (PrimFloat.add (PrimFloat.mul (h_qd c) (PrimFloat.sub (h_lng c) (h_lnq c))) 0)
    (h_u c).

(** * Instances to run the definitions on *)

(** A provider: the parent constructor keeps its keyword arguments as
    attributes and the parent class has no property of its own; the
    special functions are not available and the elementary functions are
    stand-ins.  It serves to evaluate the definitions on instances whose
    attribute dictionary holds what an evaluation reads. *)
Definition demo : Provider := {|
  f_exp x := x;
  f_log x := x;
  npy_pow x _ := x;
  float_pow x _ := Ok x;
  gamma _ := Raise (ProviderError "gamma");
  gammainc _ _ := Raise (ProviderError "gammainc");
  polygamma _ _ := Raise (ProviderError "polygamma");
  hyper _ _ _ := Raise (ProviderError "hyper");
  mrp_shape _ _ _ _ := Raise (ProviderError "mrp_shape");
  ln_mrp_shape _ _ _ _ := Raise (ProviderError "ln_mrp_shape");
  lapack_inv a := Ok a;
  super_init logm kwargs := Ok (<["logm" := logm]> kwargs);
  inherited name _ := Raise (AttributeError name);
  _meijerg _ _ _ _ := Raise (ProviderError "_meijerg")
|}.

(** The keyword arguments of a construction: one parameter set. *)
Definition kw_scalar : obj :=
  list_to_map [("log_mmin", PyInt 11); ("logHs", PyFloat 14.5);
               ("alpha", PyFloat (-1.5)); ("beta", PyFloat 0.75);
               ("scale", PyInt 0); ("mmin", NpFloat 100000000000)].

(** What the parent constructor returns for [kw_scalar]. *)
Definition parent_scalar : obj :=
  <["logm" := NdArray (Ar [Sc 11])]> (parent_kwargs kw_scalar).

(** The instance a construction returns ([∅] when it raises). *)
Definition instance_of (kw : obj) : obj :=
  match @__init__ demo kw with
  | Ok o => o
  | Raise _ => ∅
  end.

(** A batch of one parameter set whose cutoff shape is zero, and one
    parameter set whose cutoff shape is numpy's [float64(0.0)]. *)
Definition kw_zero_batch : obj :=
  <["logHs" := vec [14.5%float]]> (<["alpha" := vec [(-1.5)%float]]>
    (<["beta" := vec [0%float]]> kw_scalar)).

Definition kw_zero_np : obj := <["beta" := NpFloat 0]> kw_scalar.

(** A batch of two parameter sets. *)
Definition kw_batch2 : obj :=
  <["logHs" := vec [14.5%float; 14.25%float]]>
    (<["alpha" := vec [(-1.5)%float; (-1.75)%float]]>
       (<["beta" := vec [0.5%float; 0.25%float]]> kw_scalar)).

(** The same provider with special functions that return (one of their
    arguments), so that an evaluation gets past them. *)
Definition demo_special : Provider := {|
  f_exp x := x;
  f_log x := x;
  npy_pow x _ := x;
  float_pow x _ := Ok x;
  gamma z := Ok z;
  gammainc _ x := Ok x;
  polygamma _ z := Ok z;
  hyper _ _ _ := Raise (ProviderError "hyper");
  mrp_shape _ _ _ _ := Raise (ProviderError "mrp_shape");
  ln_mrp_shape _ _ _ _ := Raise (ProviderError "ln_mrp_shape");
  lapack_inv a := Ok a;
  super_init logm kwargs := Ok (<["logm" := logm]> kwargs);
  inherited name _ := Raise (AttributeError name);
  _meijerg _ _ _ _ := Raise (ProviderError "_meijerg")
|}.

(** The batch of two, constructed, with the quantities of the parent class
    that [lnL] reads. *)
Definition o_batch2 : obj :=
  <["_alpha_s" := vec [(-1.5)%float; (-1.75)%float]]>
    (<["_lng" := vec [2%float; 3%float]]>
       (<["_q" := vec [4%float; 8%float]]> (instance_of kw_batch2))).





(** The second partials of a batch, stored: with [_qd = 1], [_lnq_x_y = 0]
    and [_u_x_y = 0] the partial [x, y] is [_lng_x_y]. *)
Definition derivative_state (n : nat) (A : list float) (ps : list partials) : obj :=
  let zeros := vec (replicate n 0%float) in
  let ones := vec (replicate n 1%float) in
  list_to_map
    [("V", PyFloat 1); ("lnA", PyFloat 1); ("_qd_nos", vec A); ("_qd", ones);
     ("_shape", PyList [PyMethod ones "__len__"]);
     ("_lng_h_h", vec (map p_hh ps)); ("_lnq_h_h", zeros); ("_u_h_h", zeros);
     ("_lng_h_a", vec (map p_ha ps)); ("_lnq_h_a", zeros);
     ("_lng_h_b", vec (map p_hb ps)); ("_lnq_h_b", zeros); ("_u_h_b", zeros);
     ("_lng_a_a", vec (map p_aa ps)); ("_lnq_a_a", zeros);
     ("_lng_a_b", vec (map p_ab ps)); ("_lnq_a_b", zeros);
     ("_lng_b_b", vec (map p_bb ps)); ("_lnq_b_b", zeros); ("_u_b_b", zeros)].

(** A batch of three parameter sets and a batch of one, with their
    second partials and factors. *)
Definition partials_three : list partials :=
  [Partials 1 2 3 4 5 6; Partials 7 8 9 10 11 12; Partials 13 14 15 16 17 18].

Definition o_three : obj := derivative_state 3 [1%float; 2%float; 4%float] partials_three.

Definition o_one : obj := derivative_state 1 [2%float] [Partials 1 2 3 4 5 6].




(** A batch of two parameter sets with its second partials. *)
Definition partials_two : list (float * partials) :=
  [(2%float, Partials 1 2 3 4 5 6); (4%float, Partials 7 8 9 10 11 12)].

Definition o_two : obj := derivative_state 2 (map fst partials_two) (map snd partials_two).

(** One parameter set with its second partials, all numbers. *)
Definition o_partials_scalar : obj :=
  list_to_map
    [("V", PyFloat 1); ("lnA", PyFloat 1); ("_qd_nos", NpFloat 2); ("_qd", NpFloat 1);
     ("_shape", PyList []);
     ("_lng_h_h", NpFloat 1); ("_lnq_h_h", NpFloat 0); ("_u_h_h", NpFloat 0);
     ("_lng_h_a", NpFloat 2); ("_lnq_h_a", NpFloat 0);
     ("_lng_h_b", NpFloat 3); ("_lnq_h_b", NpFloat 0); ("_u_h_b", NpFloat 0);
     ("_lng_a_a", NpFloat 4); ("_lnq_a_a", NpFloat 0);
     ("_lng_a_b", NpFloat 5); ("_lnq_a_b", NpFloat 0);
     ("_lng_b_b", NpFloat 6); ("_lnq_b_b", NpFloat 0); ("_u_b_b", NpFloat 0)].



(** A data slope passed as an array of two entries, and a batch over the
    scale mass alone. *)
Definition kw_array_data : obj :=
  <["alphad" := vec [(-1.5)%float; (-1.75)%float]]> kw_scalar.

Definition kw_batch_logHs : obj :=
  <["logHs" := vec [14.5%float; 14.25%float]]> kw_scalar.

(** Integer model parameters. *)
Definition kw_int : obj :=
  <["alpha" := PyInt (-2)]> (<["beta" := PyInt 2]> kw_scalar).

(** Parameters given as numpy scalars. *)
Definition kw_np : obj :=
  <["logHs" := NpFloat 14.5]> (<["beta" := NpFloat 0.5]> kw_scalar).

(** An instance with an integer cut-off of the data and what [_u_b_b]
    reads. *)
Definition o_int_betad : obj :=
  list_to_map
    [("Hsd", NpFloat 4); ("Hs", NpFloat 2); ("betad", PyInt 2); ("beta", PyInt 2);
     ("_u_b", NpFloat 3); ("_xd", NpFloat 0.5); ("_G1d_p1", NpFloat 5);
     ("_gammainc_z1xd", NpFloat 0.25); ("_Gbard_p1", NpFloat 7)].

(** A batch of three parameter sets with one factor. *)
Definition o_three_equal : obj :=
  derivative_state 3 [2%float; 2%float; 2%float] partials_three.


Definition h_terms_batch : list h_terms := [HTerms 2 5 3 1; HTerms 4 7 6 0.5].

(** The batch of two with what [_F_x("h")] reads. *)
Definition o_batch2_h : obj :=
  <["_qd" := vec (map h_qd h_terms_batch)]>
    (<["_lng_h" := vec (map h_lng h_terms_batch)]>
       (<["_lnq_h" := vec (map h_lnq h_terms_batch)]>
          (<["_u_h" := vec (map h_u h_terms_batch)]> o_batch2))).

(** A stand-in for [core.mrp] that hands back what it was given. *)
Definition mrp_echo (m hs alpha beta mmin mmax norm log : value) (kw : kwargs)
  : result value :=
  Ok (PyTuple [m; hs; alpha; beta; mmin; mmax; norm; log]).

(** * Verification *)

(** ** Induction over nested values *)

Lemma nd_ind_nested (P : nd → Prop) :
  (∀ x, P (Sc x)) → (∀ l, Forall P l → P (Ar l)) → ∀ a, P a.
Proof.
  intros HS HA. fix IH 1. intros [x|l]; [apply HS|apply HA].
  induction l as [|a l IHl]; constructor; [apply IH|exact IHl].
Qed.

Lemma value_ind_nested (P : value → Prop) :
  P PyNone → (∀ n, P (PyInt n)) → (∀ x, P (PyFloat x)) → (∀ x, P (NpFloat x)) →
  (∀ a, P (NdArray a)) →
  (∀ l, Forall P l → P (PyList l)) → (∀ l, Forall P l → P (PyTuple l)) →
  (∀ l, Forall P l → P (ObjArray l)) →
  (∀ v name, P v → P (PyMethod v name)) → ∀ v, P v.
Proof.
  intros HN HI HF HNp HA HL HT HO HM. fix IH 1.
  intros [ |n|x|x|a|l|l|l|v name];
    [exact HN|apply HI|apply HF|apply HNp|apply HA
    |apply HL|apply HT|apply HO|apply HM, IH];
    induction l as [|a l IHl]; constructor; solve [apply IH|exact IHl].
Qed.

(** ** The error monad *)

Lemma bind_Ok_inv {A B} (m : result A) (k : A → result B) b :
  bind m k = Ok b → ∃ a, m = Ok a ∧ k a = Ok b.
Proof. destruct m as [a|e]; simpl; [eauto|discriminate]. Qed.

Lemma bind_Raise {A B} (m : result A) (k : A → result B) e :
  m = Raise e → bind m k = Raise e.
Proof. by intros ->. Qed.

Lemma not_Ok_raises {A} (r : result A) : (∀ a, r ≠ Ok a) → raises r.
Proof. destruct r as [a|e]; [intros Hr; by destruct (Hr a)|by exists e]. Qed.

Lemma bind_not_Ok {A B} (m : result A) (k : A → result B) :
  (∀ a, m = Ok a → ∀ b, k a ≠ Ok b) → ∀ b, bind m k ≠ Ok b.
Proof. destruct m as [a|e]; simpl; [eauto|discriminate]. Qed.

(** ** Which exceptions an operation can raise

    [avoids e r]: the computation [r] does not raise [e]. *)

Lemma avoids_Ok {A} e (a : A) : avoids e (Ok a).
Proof. discriminate. Qed.

Lemma avoids_Raise {A} e e' : e' ≠ e → avoids (A := A) e (Raise e').
Proof. intros Hne [= ->]. by apply Hne. Qed.

Lemma avoids_bind {A B} e (m : result A) (k : A → result B) :
  avoids e m → (∀ a, m = Ok a → avoids e (k a)) → avoids e (bind m k).
Proof.
  destruct m as [a|e']; simpl; intros Hm Hk; [by apply Hk|].
  intros [= ->]. by apply Hm.
Qed.

Lemma avoids_mapM {A B} e (f : A → result B) l :
  Forall (λ x, avoids e (f x)) l → avoids e (mapM f l).
Proof.
  induction 1 as [|x l Hx Hl IH]; simpl; [apply avoids_Ok|].
  apply avoids_bind; [exact Hx|intros y _].
  apply avoids_bind; [exact IH|intros ys _; apply avoids_Ok].
Qed.

Lemma avoids_zipM {A B C} e (f : A → B → result C) l k :
  Forall (λ x, ∀ y, avoids e (f x y)) l → avoids e (zipM f l k).
Proof.
  intros Hl. revert k. induction Hl as [|x l Hx Hl IH]; intros [|y k]; simpl;
    try apply avoids_Ok.
  apply avoids_bind; [apply Hx|intros z _].
  apply avoids_bind; [apply IH|intros zs _; apply avoids_Ok].
Qed.

Lemma nd_map2_eq f a b :
  nd_map2 f a b =
    match a, b with
    | Sc x, Sc y => Ok (Sc (f x y))
    | Sc _, Ar lb => l <- mapM (nd_map2 f a) lb ;; Ok (Ar l)
    | Ar la, Sc _ => l <- mapM (λ ai, nd_map2 f ai b) la ;; Ok (Ar l)
    | Ar la, Ar lb =>
        if (rank a <? rank b)%nat then
          l <- mapM (nd_map2 f a) lb ;; Ok (Ar l)
        else if (rank b <? rank a)%nat then
          l <- mapM (λ ai, nd_map2 f ai b) la ;; Ok (Ar l)
        else if (length la =? length lb)%nat then
          l <- zipM (λ ai bi, nd_map2 f ai bi) la lb ;; Ok (Ar l)
        else
          match la, lb with
          | [a0], _ => l <- mapM (λ bi, nd_map2 f a0 bi) lb ;; Ok (Ar l)
          | _, [b0] => l <- mapM (λ ai, nd_map2 f ai b0) la ;; Ok (Ar l)
          | _, _ => Raise (ValueError broadcast_msg)
          end
    end.
Proof. destruct a, b; reflexivity. Qed.

Arguments nd_map2 : simpl never.

Lemma avoids_nd_map2 f a b : avoids mmin_error (nd_map2 f a b).
Proof.
  revert b. induction a as [x|la IHa] using nd_ind_nested;
    induction b as [y|lb IHb] using nd_ind_nested; rewrite nd_map2_eq.
  - apply avoids_Ok.
  - apply avoids_bind; [by apply avoids_mapM|intros; apply avoids_Ok].
  - apply avoids_bind; [|intros; apply avoids_Ok].
    apply avoids_mapM. eapply Forall_impl; [exact IHa|]. simpl. auto.
  - assert (avoids mmin_error (l <- mapM (nd_map2 f (Ar la)) lb ;; Ok (Ar l))) as H1.
    { apply avoids_bind; [by apply avoids_mapM|intros; apply avoids_Ok]. }
    assert (∀ b, avoids mmin_error (l <- mapM (λ ai, nd_map2 f ai b) la ;; Ok (Ar l)))
      as H2.
    { intros b. apply avoids_bind; [|intros; apply avoids_Ok].
      apply avoids_mapM. eapply Forall_impl; [exact IHa|]. simpl. auto. }
    repeat case_match; try done; try apply H2.
    + apply avoids_bind; [|intros; apply avoids_Ok].
      apply avoids_zipM. exact IHa.
    + subst. apply avoids_bind; [|intros; apply avoids_Ok].
      apply avoids_mapM. apply Forall_forall. intros bi _.
      by inversion IHa; subst.
Qed.

Lemma avoids_int_to_float n : avoids mmin_error (int_to_float n).
Proof. unfold int_to_float. case_match; [by apply avoids_Raise|apply avoids_Ok]. Qed.

Lemma avoids_nd_stack l : avoids mmin_error (nd_stack l).
Proof.
  destruct l as [|x r]; simpl; [apply avoids_Ok|].
  case_match; [apply avoids_Ok|by apply avoids_Raise].
Qed.

Lemma avoids_as_nd v : avoids mmin_error (as_nd v).
Proof.
  induction v as [ |n|x|x|a|l IH|l IH|l IH|v name IH] using value_ind_nested;
    simpl; try apply avoids_Ok; try (by apply avoids_Raise).
  - apply avoids_bind; [apply avoids_int_to_float|intros; apply avoids_Ok].
  - apply avoids_bind; [by apply avoids_mapM|intros; apply avoids_nd_stack].
  - apply avoids_bind; [by apply avoids_mapM|intros; apply avoids_nd_stack].
Qed.

Lemma avoids_truthy v : avoids mmin_error (truthy v).
Proof.
  induction v as [ |n|x|x|a|l IH|l IH|l IH|v name IH] using value_ind_nested;
    simpl; try apply avoids_Ok.
  - repeat case_match; solve [apply avoids_Ok|by apply avoids_Raise].
  - destruct l as [|x [|y l]]; [apply avoids_Ok| |by apply avoids_Raise].
    by inversion IH.
Qed.

Lemma list_remove_None_avoids l : avoids mmin_error (list_remove_None l).
Proof.
  induction l as [|x r IH]; simpl; [by apply avoids_Raise|].
  destruct (is_None x); [apply avoids_Ok|].
  apply avoids_bind; [exact IH|intros; apply avoids_Ok].
Qed.

Lemma while_None_in_avoids l : avoids mmin_error (while_None_in l).
Proof.
  funelim (while_None_in l).
  - apply avoids_Ok.
  - assumption.
  - intros [= ->]. by eapply list_remove_None_avoids.
Qed.

Section Construction.
Context `{Provider}.

Lemma avoids_py_add a b : avoids mmin_error (py_add a b).
Proof.
  unfold py_add, py_binop.
  assert (avoids mmin_error
            (x <- as_nd a ;; y <- as_nd b ;;
             r <- nd_map2 (npy_binop Add) x y ;; Ok (nd_to_value r))) as Hnp.
  { apply avoids_bind; [apply avoids_as_nd|intros x _].
    apply avoids_bind; [apply avoids_as_nd|intros y _].
    apply avoids_bind; [apply avoids_nd_map2|intros; apply avoids_Ok]. }
  destruct a, b; simpl; try exact Hnp;
    try apply avoids_Ok; try (by apply avoids_Raise);
    apply avoids_bind; solve [apply avoids_int_to_float|intros; apply avoids_Ok].
Qed.

Lemma init_without_log_mmin kw :
  kw !! "log_mmin" = None → __init__ kw = Raise (ValueError log_mmin_msg).
Proof.
  intros Hm. unfold __init__.
  by rewrite !lookup_delete_ne, Hm by done.
Qed.

Lemma init_with_log_mmin kw m :
  kw !! "log_mmin" = Some m →
  __init__ kw =
    (logm <- np_array (PyList [m]) ;;
     self <- super_init logm (parent_kwargs kw) ;;
     let self := with_V_lnA kw self in
     v <- py_or (default PyNone (kw !! "logHsd")) (getattr self "logHs") ;;
     let self := <["logHsd" := v]> self in
     v <- py_or (default PyNone (kw !! "alphad")) (getattr self "alpha") ;;
     let self := <["alphad" := v]> self in
     v <- py_or (default PyNone (kw !! "betad")) (getattr self "beta") ;;
     let self := <["betad" := v]> self in
     ad <- getattr self "alphad" ;;
     sc <- getattr self "scale" ;;
     v <- py_add ad sc ;;
     let self := <["_alphad_s" := v]> self in
     sh <- mapM (λ q, v <- getattr self q ;; Ok (getattr_len v))
                ["mmin"; "logHs"; "alpha"; "beta"; "scale"] ;;
     sh <- while_None_in sh ;;
     Ok (<["_shape" := PyList sh]> self)).
Proof.
  intros Hm. unfold __init__.
  by rewrite !lookup_delete_ne, Hm by done.
Qed.

Lemma avoids_getattr o name :
  (∀ name o, avoids mmin_error (inherited name o)) →
  avoids mmin_error (getattr o name).
Proof. intros Hi. unfold getattr. case_match; [apply avoids_Ok|apply Hi]. Qed.

Lemma avoids_py_or a b :
  avoids mmin_error b → avoids mmin_error (py_or a b).
Proof.
  intros Hb. unfold py_or.
  apply avoids_bind; [apply avoids_truthy|intros [] _; [apply avoids_Ok|exact Hb]].
Qed.

Lemma py_or_falsy a b : truthy a = Ok false → py_or a b = b.
Proof. unfold py_or. by intros ->. Qed.

Lemma py_or_truthy a b : truthy a = Ok true → py_or a b = Ok a.
Proof. unfold py_or. by intros ->. Qed.

Lemma getattr_stored o name v : o !! name = Some v → getattr o name = Ok v.
Proof. unfold getattr. by intros ->. Qed.

(** A constructed instance is the parent's with seven attributes set. *)
Lemma init_Ok_inv kw o :
  __init__ kw = Ok o →
  ∃ s0 vh va vb s sh,
    parent_instance kw s0 ∧
    py_or (default PyNone (kw !! "logHsd")) (getattr (with_V_lnA kw s0) "logHs") = Ok vh ∧
    py_or (default PyNone (kw !! "alphad"))
          (getattr (<["logHsd" := vh]> (with_V_lnA kw s0)) "alpha") = Ok va ∧
    py_or (default PyNone (kw !! "betad"))
          (getattr (<["alphad" := va]> (<["logHsd" := vh]> (with_V_lnA kw s0))) "beta")
      = Ok vb ∧
    o = <["_shape" := PyList sh]> (<["_alphad_s" := s]> (<["betad" := vb]>
          (<["alphad" := va]> (<["logHsd" := vh]> (with_V_lnA kw s0))))).
Proof.
  intros Hinit.
  destruct (kw !! "log_mmin") as [m|] eqn:Hm;
    [|by rewrite init_without_log_mmin in Hinit].
  rewrite (init_with_log_mmin _ _ Hm) in Hinit.
  apply bind_Ok_inv in Hinit as (logm & Hlogm & Hinit).
  apply bind_Ok_inv in Hinit as (s0 & Hs0 & Hinit). cbv zeta in Hinit.
  apply bind_Ok_inv in Hinit as (vh & Hvh & Hinit).
  apply bind_Ok_inv in Hinit as (va & Hva & Hinit).
  apply bind_Ok_inv in Hinit as (vb & Hvb & Hinit).
  apply bind_Ok_inv in Hinit as (ad & _ & Hinit).
  apply bind_Ok_inv in Hinit as (sc & _ & Hinit).
  apply bind_Ok_inv in Hinit as (s & _ & Hinit).
  apply bind_Ok_inv in Hinit as (sh0 & _ & Hinit).
  apply bind_Ok_inv in Hinit as (sh & _ & Hinit).
  injection Hinit as <-.
  exists s0, vh, va, vb, s, sh. repeat split; try done.
  by exists m, logm.
Qed.

Lemma parent_instance_unique kw s0 s1 :
  parent_instance kw s0 → parent_instance kw s1 → s0 = s1.
Proof.
  intros (m & logm & Hm & Hl & Hs) (m' & logm' & Hm' & Hl' & Hs').
  congruence.
Qed.

(** The constructor writes none of the model parameters. *)
Lemma init_keeps_model kw o s0 k :
  __init__ kw = Ok o → parent_instance kw s0 →
  k ∈ ["logHs"; "alpha"; "beta"] → o !! k = s0 !! k.
Proof.
  intros Hinit Hp Hk.
  apply init_Ok_inv in Hinit as (s0' & vh & va & vb & s & sh & Hp' & _ & _ & _ & ->).
  rewrite (parent_instance_unique _ _ _ Hp Hp'). unfold with_V_lnA.
  set_unfold in Hk. destruct Hk as [->|[->|[->|[]]]]; by rewrite !lookup_insert_ne.
Qed.

(** A data argument that is false ([None], [0], [0.0], ...) is replaced by
    the model parameter the parent constructor stored. *)
Lemma init_falsy_data kw o s0 d p v :
  __init__ kw = Ok o → parent_instance kw s0 →
  (d, p) ∈ [("logHsd", "logHs"); ("alphad", "alpha"); ("betad", "beta")] →
  truthy (default PyNone (kw !! d)) = Ok false →
  s0 !! p = Some v → o !! d = Some v.
Proof.
  intros Hinit Hp Hdp Hf Hv.
  apply init_Ok_inv in Hinit as (s0' & vh & va & vb & s & sh & Hp' & Hh & Ha & Hb & ->).
  rewrite <- (parent_instance_unique _ _ _ Hp Hp') in *. clear Hp'.
  unfold with_V_lnA in *.
  set_unfold in Hdp. destruct Hdp as [[= -> ->]|[[= -> ->]|[[= -> ->]|[]]]].
  - rewrite py_or_falsy in Hh by done.
    rewrite (getattr_stored _ _ v) in Hh by (by rewrite !lookup_insert_ne).
    injection Hh as <-. rewrite !lookup_insert_ne by done. apply lookup_insert_eq.
  - rewrite py_or_falsy in Ha by done.
    rewrite (getattr_stored _ _ v) in Ha by (by rewrite !lookup_insert_ne).
    injection Ha as <-. rewrite !lookup_insert_ne by done. apply lookup_insert_eq.
  - rewrite py_or_falsy in Hb by done.
    rewrite (getattr_stored _ _ v) in Hb by (by rewrite !lookup_insert_ne).
    injection Hb as <-. rewrite !lookup_insert_ne by done. apply lookup_insert_eq.
Qed.

(** C8: a construction without [log_mmin] raises the class's [ValueError]
    at once, whatever the parent class and the special functions do (none
    of them is reached); with [log_mmin] given the construction never
    raises that error, the parent class not raising it either. *)
Theorem C8_log_mmin_required :
  (∀ kw, kw !! "log_mmin" = None → __init__ kw = Raise (ValueError log_mmin_msg)) ∧
  (∀ kw m, kw !! "log_mmin" = Some m →
     (∀ logm kwargs, avoids mmin_error (super_init logm kwargs)) →
     (∀ name o, avoids mmin_error (inherited name o)) →
     avoids mmin_error (__init__ kw)).
Proof.
  split; [apply init_without_log_mmin|].
  intros kw m Hm Hsuper Hinh. rewrite (init_with_log_mmin _ _ Hm).
  apply avoids_bind.
  { unfold np_array. apply avoids_bind; [apply avoids_as_nd|intros; apply avoids_Ok]. }
  intros logm _. apply avoids_bind; [apply Hsuper|]. intros s0 _. cbv zeta.
  repeat (apply avoids_bind;
          [first [ by apply avoids_py_or, avoids_getattr
                 | by apply avoids_getattr
                 | apply avoids_py_add
                 | apply while_None_in_avoids
                 | apply avoids_mapM, Forall_forall; intros q _;
                   apply avoids_bind; [by apply avoids_getattr|intros; apply avoids_Ok] ]
          | intros ? _ ]).
  apply avoids_Ok.
Qed.

(** C9: a data parameter that is not supplied is the model parameter the
    parent constructor stored, and the constructor leaves the model
    parameters as it found them. *)
Theorem C9_data_defaults kw o s0 :
  __init__ kw = Ok o → parent_instance kw s0 →
  (∀ k, k ∈ ["logHs"; "alpha"; "beta"] → o !! k = s0 !! k) ∧
  (∀ d p v, (d, p) ∈ [("logHsd", "logHs"); ("alphad", "alpha"); ("betad", "beta")] →
            kw !! d = None → s0 !! p = Some v →
            o !! d = Some v ∧ o !! p = Some v).
Proof.
  intros Hinit Hp. split; [intros k; by apply (init_keeps_model kw)|].
  intros d p v Hdp Hd Hv. split.
  - eapply init_falsy_data; try done. by rewrite Hd.
  - rewrite (init_keeps_model kw o s0 p Hinit Hp); [done|].
    set_unfold in Hdp.
    destruct Hdp as [[= -> ->]|[[= -> ->]|[[= -> ->]|[]]]]; set_solver.
Qed.

(** C10: [0] and [0.0] are false, and a data parameter passed as a false
    value is not used: the model parameter takes its place. *)
Theorem C10_falsy_data_replaced :
  (truthy (PyInt 0) = Ok false ∧ truthy (PyFloat 0) = Ok false) ∧
  (∀ kw o s0 d p x v,
     __init__ kw = Ok o → parent_instance kw s0 →
     (d, p) ∈ [("logHsd", "logHs"); ("alphad", "alpha"); ("betad", "beta")] →
     kw !! d = Some x → truthy x = Ok false → s0 !! p = Some v →
     o !! d = Some v).
Proof.
  split; [done|]. intros kw o s0 d p x v Hinit Hp Hdp Hd Hx Hv.
  eapply init_falsy_data; try done. by rewrite Hd.
Qed.

End Construction.

Lemma parent_scalar_spec : @parent_instance demo kw_scalar parent_scalar.
Proof. exists (PyInt 11), (NdArray (Ar [Sc 11])). by vm_compute. Defined.

Lemma C8_log_mmin_required_witness :
  @__init__ demo (delete "log_mmin" kw_scalar) = Raise (ValueError log_mmin_msg) ∧
  avoids mmin_error (@__init__ demo kw_scalar).
Proof.
  split.
  - apply (proj1 (@C8_log_mmin_required demo)). reflexivity.
  - apply (proj2 (@C8_log_mmin_required demo) kw_scalar (PyInt 11)).
    + reflexivity.
    + intros logm kwargs. discriminate.
    + intros name o. discriminate.
Defined.

Lemma C9_data_defaults_witness :
  instance_of kw_scalar !! "alphad" = Some (PyFloat (-1.5)) ∧
  instance_of kw_scalar !! "alpha" = Some (PyFloat (-1.5)).
Proof.
  apply (proj2 (@C9_data_defaults demo kw_scalar (instance_of kw_scalar)
                  parent_scalar eq_refl parent_scalar_spec) "alphad" "alpha").
  - apply list_elem_of_further, list_elem_of_here.
  - reflexivity.
  - reflexivity.
Defined.

(** [alphad=0.0] is passed, and the data slope is the model's [-1.5]. *)
Lemma C10_falsy_data_replaced_witness :
  instance_of (<["alphad" := PyFloat 0]> kw_scalar) !! "alphad" = Some (PyFloat (-1.5)).
Proof.
  apply (proj2 (@C10_falsy_data_replaced demo) (<["alphad" := PyFloat 0]> kw_scalar) _
           parent_scalar "alphad" "alpha" (PyFloat 0)).
  - reflexivity.
  - exists (PyInt 11), (NdArray (Ar [Sc 11])). by vm_compute.
  - apply list_elem_of_further, list_elem_of_here.
  - reflexivity.
  - apply (proj1 (@C10_falsy_data_replaced demo)).
  - reflexivity.
Defined.

(** ** One-dimensional arrays under the ufuncs *)

Lemma int_to_float_1 : int_to_float 1 = Ok 1%float.
Proof. reflexivity. Qed.

Lemma rank_vec l : rank (Ar (map Sc l)) = 1.
Proof. by destruct l. Qed.

Lemma zipM_vec f la lb :
  length la = length lb →
  zipM (λ ai bi, nd_map2 f ai bi) (map Sc la) (map Sc lb)
    = Ok (map Sc (zip_with f la lb)).
Proof.
  revert lb. induction la as [|a la IH]; intros [|b lb]; simpl; try done.
  intros [= Hlen]. by rewrite IH.
Qed.

Lemma nd_map2_vec_vec f la lb :
  length la = length lb →
  nd_map2 f (Ar (map Sc la)) (Ar (map Sc lb)) = Ok (Ar (map Sc (zip_with f la lb))).
Proof.
  intros Hlen. rewrite nd_map2_eq, !rank_vec, !length_map, Hlen.
  rewrite Nat.ltb_irrefl, Nat.eqb_refl. by rewrite zipM_vec.
Qed.

Lemma mapM_Sc (g : nd → result nd) (h : float → float) l :
  (∀ x, g (Sc x) = Ok (Sc (h x))) → mapM g (map Sc l) = Ok (map Sc (map h l)).
Proof.
  intros Hg. induction l as [|a l IH]; simpl; [done|]. by rewrite Hg, IH.
Qed.

Lemma nd_map2_vec_sc f la y :
  nd_map2 f (Ar (map Sc la)) (Sc y) = Ok (Ar (map Sc (map (λ x, f x y) la))).
Proof.
  rewrite nd_map2_eq. erewrite mapM_Sc; [done|]. by intros a.
Qed.

Lemma nd_map2_sc_vec f x lb :
  nd_map2 f (Sc x) (Ar (map Sc lb)) = Ok (Ar (map Sc (map (f x) lb))).
Proof.
  rewrite nd_map2_eq. erewrite mapM_Sc; [done|]. by intros b.
Qed.

Section Ufuncs.
Context `{Provider}.

Lemma py_binop_vec_vec op la lb :
  length la = length lb →
  py_binop op (vec la) (vec lb) = Ok (vec (zip_with (npy_binop op) la lb)).
Proof.
  intros Hlen. unfold py_binop, vec. simpl. by rewrite nd_map2_vec_vec.
Qed.

Lemma py_binop_vec_int op la n x :
  int_to_float n = Ok x →
  py_binop op (vec la) (PyInt n) = Ok (vec (map (λ a, npy_binop op a x) la)).
Proof.
  intros Hn. unfold py_binop, vec. simpl. rewrite Hn. simpl.
  by rewrite nd_map2_vec_sc.
Qed.

Lemma py_binop_np_np op x y :
  py_binop op (NpFloat x) (NpFloat y) = Ok (NpFloat (npy_binop op x y)).
Proof. reflexivity. Qed.

Lemma cached_miss name body (o : obj) :
  o !! name = None → cached name body o = body o.
Proof. unfold cached. by intros ->. Qed.

Lemma cached_hit name body (o : obj) v :
  o !! name = Some v → cached name body o = Ok v.
Proof. unfold cached. by intros ->. Qed.

(** C7, as the code has it: with the shape parameters given as Python
    floats a cutoff shape of zero makes [_zd] raise [ZeroDivisionError];
    given as numpy arrays (a batch) or numpy scalars the division is
    numpy's, which returns the IEEE quotient (an infinity or a NaN for a
    zero divisor) and raises nothing. *)
Theorem C7_zero_cutoff_shape :
  (∀ (o : obj) a b,
     o !! "_zd" = None → o !! "_alphad_s" = Some (PyFloat a) → o !! "betad" = Some b →
     b = PyInt 0 ∨ (∃ y, b = PyFloat y ∧ f_is_zero y = true) →
     _zd o = Raise (ZeroDivisionError "float division by zero")) ∧
  (∀ (o : obj) la lb,
     o !! "_zd" = None → o !! "_alphad_s" = Some (vec la) → o !! "betad" = Some (vec lb) →
     length la = length lb →
     _zd o = Ok (vec (zip_with (λ a b, PrimFloat.div (PrimFloat.add a 1) b) la lb))) ∧
  (∀ (o : obj) a b,
     o !! "_zd" = None → o !! "_alphad_s" = Some (PyFloat a) →
     o !! "betad" = Some (NpFloat b) →
     _zd o = Ok (NpFloat (PrimFloat.div (PrimFloat.add a 1) b))).
Proof.
  split; [|split].
  - intros o a b Hz Ha Hb Hzero. unfold _zd. rewrite cached_miss by done.
    rewrite (getattr_stored _ _ _ Ha), (getattr_stored _ _ _ Hb). simpl.
    destruct Hzero as [->|(y & -> & Hy)]; simpl; [done|by rewrite Hy].
  - intros o la lb Hz Ha Hb Hlen. unfold _zd. rewrite cached_miss by done.
    rewrite (getattr_stored _ _ _ Ha), (getattr_stored _ _ _ Hb). cbn [bind].
    unfold py_add. rewrite (py_binop_vec_int _ _ _ _ int_to_float_1). cbn [bind].
    unfold py_div. rewrite py_binop_vec_vec by by rewrite length_map.
    by rewrite zip_with_fmap_l.
  - intros o a b Hz Ha Hb. unfold _zd. rewrite cached_miss by done.
    by rewrite (getattr_stored _ _ _ Ha), (getattr_stored _ _ _ Hb).
Qed.

End Ufuncs.

(** The claim C7 fails on them: no exception, an infinity. *)
Lemma C7_zero_cutoff_shape_counterexample :
  (instance_of kw_zero_batch !! "betad" = Some (vec [0%float]) ∧
   @_zd demo (instance_of kw_zero_batch) = Ok (vec [neg_infinity])) ∧
  (instance_of kw_zero_np !! "betad" = Some (NpFloat 0) ∧
   @_zd demo (instance_of kw_zero_np) = Ok (NpFloat neg_infinity)).
Proof. by vm_compute. Qed.

Lemma C7_zero_cutoff_shape_witness :
  @_zd demo (instance_of (<["beta" := PyFloat 0]> kw_scalar))
    = Raise (ZeroDivisionError "float division by zero") ∧
  @_zd demo (instance_of kw_zero_batch) = Ok (vec [neg_infinity]) ∧
  @_zd demo (instance_of kw_zero_np) = Ok (NpFloat neg_infinity).
Proof.
  destruct (@C7_zero_cutoff_shape demo) as (Hpy & Hvec & Hnp).
  split; [|split].
  - apply (Hpy _ (-1.5)%float (PyFloat 0)); [reflexivity..|].
    right. exists 0%float. split; reflexivity.
  - apply (Hvec _ [(-1.5)%float] [0%float]); reflexivity.
  - apply (Hnp _ (-1.5)%float 0%float); reflexivity.
Defined.

(** ** The batched branch of [_hyperReg] *)

Lemma unpack4_pair i t :
  unpack 4 (PyTuple [i; t]) = Raise (ValueError unpack_msg).
Proof. reflexivity. Qed.

Section HyperReg.
Context `{Provider}.

(** The loop header unpacks the pairs of [enumerate] into four names:
    the first item raises. *)
Lemma for_each_enumerate_raises {S} item rest (s : S) body :
  (∀ i t s, body (PyTuple [i; t]) s = Raise (ValueError unpack_msg)) →
  for_each (enumerate (item :: rest)) s body = Raise (ValueError unpack_msg).
Proof. intros Hbody. unfold enumerate. simpl. by rewrite Hbody. Qed.

Lemma zip3_cons_inv la lb lz :
  la ≠ [] → lb ≠ [] → lz ≠ [] → ∃ item rest, zip3 la lb lz = item :: rest.
Proof. destruct la, lb, lz; try done. simpl. eauto. Qed.

(** What [np.atleast_1d] and [np.repeat] leave of the evaluation point:
    it is not empty. *)
Lemma batch_z_prepared n z :
  0 < n → batch_z n z →
  ∃ lz, lz ≠ [] ∧
    (z' <- np_atleast_1d z ;;
     k <- py_len z' ;;
     z'' <- (if (k =? 1)%nat then np_repeat z' n else Ok z') ;;
     py_iter z'') = Ok lz.
Proof.
  intros Hn [(x & [-> | ->]) | (lz & -> & Hlz)]; simpl.
  - destruct n; [lia|]. simpl. eexists; split; [|reflexivity]. discriminate.
  - destruct n; [lia|]. simpl. eexists; split; [|reflexivity]. discriminate.
  - unfold np_atleast_1d, vec. simpl.
    destruct lz as [|z0 lz]; [simpl in Hlz; lia|]. simpl.
    destruct lz as [|z1 lz]; simpl.
    + destruct n; [lia|]. simpl. eexists; split; [|reflexivity]. discriminate.
    + eexists; split; [|reflexivity]. discriminate.
Qed.

Lemma hyperReg_batch_unpack (a0 b0 : list float) (a' b' : list value) z :
  a0 ≠ [] → length b0 = length a0 → batch_z (length a0) z →
  _hyperReg (PyList (vec a0 :: a')) (PyList (vec b0 :: b')) z
    = Raise (ValueError unpack_msg).
Proof.
  intros Ha Hb Hz.
  assert (0 < length a0) as Hn by (destruct a0; [done|simpl; lia]).
  destruct (batch_z_prepared _ _ Hn Hz) as (lz & Hlz & Hprep).
  unfold _hyperReg.
  change (py_getitem (PyList (vec a0 :: a')) 0) with (Ok (vec a0)).
  change (py_getitem (PyList (vec b0 :: b')) 0) with (Ok (vec b0)).
  cbn [bind has_len vec np_zeros_like as_nd py_len py_iter].
  rewrite length_map.
  apply bind_Ok_inv in Hprep as (z1 & -> & Hprep). cbn [bind].
  apply bind_Ok_inv in Hprep as (k & -> & Hprep). cbn [bind].
  apply bind_Ok_inv in Hprep as (z2 & -> & Hprep). cbn [bind].
  rewrite Hprep. cbn [bind].
  destruct (zip3_cons_inv (map nd_to_value (map Sc a0)) (map nd_to_value (map Sc b0)) lz)
    as (item & rest & ->); [by destruct a0|by destruct b0, a0|done|].
  rewrite for_each_enumerate_raises; [done|].
  intros i t [[x y] out]. by rewrite unpack4_pair.
Qed.

(** C2, as the code has it: on a batch of at least one element the
    batched branch of [_hyperReg] raises [ValueError] at the head of its
    loop, and no array is returned. *)
Theorem C2_hyperReg_batched_raises (a0 b0 : list float) (a' b' : list value) z :
  a0 ≠ [] → length b0 = length a0 → batch_z (length a0) z →
  _hyperReg (PyList (vec a0 :: a')) (PyList (vec b0 :: b')) z
    = Raise (ValueError unpack_msg).
Proof. apply hyperReg_batch_unpack. Qed.

Lemma batch_z_neg n z : batch_z n z → ∃ z', py_neg z = Ok z' ∧ batch_z n z'.
Proof.
  intros [(x & [-> | ->]) | (lz & -> & Hlz)]; simpl.
  - eexists; split; [done|]. left. eauto.
  - eexists; split; [done|]. left. eauto.
  - exists (vec (map PrimFloat.opp lz)). split.
    + unfold vec. do 3 f_equal. by rewrite <- !list_fmap_compose.
    + right. eexists; split; [done|]. by rewrite length_map.
Qed.

(** Stepping over the part of a computation that comes before a call that
    raises. *)
Ltac skip_bind :=
  apply bind_not_Ok; let a := fresh "a" in let Ha := fresh "Ha" in intros a Ha.

(** With a batch of shape exponents [_t] has no value: its call of
    [_hyperReg] raises (when nothing before it did). *)
Lemma t_batched_raises (o : obj) zd0 zds xd :
  o !! "_t" = None →
  _zd o = Ok (vec (zd0 :: zds)) → _xd o = Ok xd → batch_z (S (length zds)) xd →
  ∀ v, _t o ≠ Ok v.
Proof.
  intros Ht Hzd Hxd Hbz. unfold _t. rewrite cached_miss by done.
  destruct (batch_z_neg _ _ Hbz) as (mx & Hneg & Hmx).
  do 2 skip_bind. rewrite Hzd. cbn [bind].
  do 12 skip_bind.
  unfold py_add. rewrite !(py_binop_vec_int _ _ _ _ int_to_float_1). cbn [bind].
  rewrite Hxd. cbn [bind]. rewrite Hneg. cbn [bind].
  rewrite hyperReg_batch_unpack; [done|done|by rewrite length_map|done].
Qed.

(** C3, as the code has it: on a batch of parameter sets whose slopes or
    cutoff shapes vary (so that the shape exponent [_zd] is an array)
    [lnL] has no value to compare with the scalar evaluations: the
    evaluation raises. *)
Theorem C3_batched_lnL_raises (o : obj) zd0 zds xd :
  o !! "lnL" = None → o !! "_F" = None → o !! "_t" = None →
  _zd o = Ok (vec (zd0 :: zds)) → _xd o = Ok xd → batch_z (S (length zds)) xd →
  raises (lnL o).
Proof.
  intros HlnL HF Ht Hzd Hxd Hbz. apply not_Ok_raises. intros v.
  unfold lnL. rewrite cached_miss by done.
  intros Hv.
  apply bind_Ok_inv in Hv as (p & _ & Hv).
  apply bind_Ok_inv in Hv as (f & Hf & _).
  unfold _F in Hf. rewrite cached_miss in Hf by done.
  do 6 (apply bind_Ok_inv in Hf as (? & _ & Hf)).
  apply bind_Ok_inv in Hf as (t & Htv & _).
  by eapply t_batched_raises in Htv.
Qed.

End HyperReg.

Lemma C2_hyperReg_batched_raises_witness :
  @_hyperReg demo (PyList [vec [0.5%float; 0.25%float]; vec [0.5%float; 0.25%float]])
                  (PyList [vec [1.5%float; 1.25%float]; vec [1.5%float; 1.25%float]])
                  (vec [(-2)%float; (-3)%float])
    = Raise (ValueError unpack_msg).
Proof.
  apply (@C2_hyperReg_batched_raises demo [0.5%float; 0.25%float] [1.5%float; 1.25%float]).
  - discriminate.
  - reflexivity.
  - right. exists [(-2)%float; (-3)%float]. split; [reflexivity|right; reflexivity].
Defined.

Lemma C3_batched_lnL_raises_witness :
  raises (@lnL demo_special o_batch2) ∧
  @lnL demo_special o_batch2 = Raise (ValueError unpack_msg).
Proof.
  split; [|reflexivity].
  apply (@C3_batched_lnL_raises demo_special o_batch2 (-1)%float [(-3)%float]
           (vec [10000000000%float; 10000000000%float])).
  - reflexivity.
  - reflexivity.
  - reflexivity.
  - reflexivity.
  - reflexivity.
  - right. exists [10000000000%float; 10000000000%float].
    split; [reflexivity|right; reflexivity].
Defined.

(** ** The assembly of the log-likelihood *)

Section Assembly.
Context `{Provider}.

Lemma is_scalar_as_nd v x : is_scalar v x → as_nd v = Ok (Sc x).
Proof. destruct 1 as [n x Hn| |]; simpl; [by rewrite Hn|done..]. Qed.

Lemma py_binop_scalar_np op a x y :
  is_scalar a x → py_binop op a (NpFloat y) = Ok (NpFloat (npy_binop op x y)).
Proof. destruct 1 as [n x Hn| |]; simpl; [by rewrite Hn|done..]. Qed.

Lemma np_ufunc_scalar f a x : is_scalar a x → np_ufunc f a = Ok (NpFloat (f x)).
Proof. intros Ha. unfold np_ufunc. by rewrite (is_scalar_as_nd _ _ Ha). Qed.

Lemma vec_map_map {A} (g : A → float) (cs : list A) :
  Ar (map Sc (map g cs)) = Ar (map (λ c, Sc (g c)) cs).
Proof. by rewrite <- list_fmap_compose. Qed.

Lemma zip_with_map_same {A} (f : float → float → float) (g h : A → float) cs :
  zip_with f (map g cs) (map h cs) = map (λ c, f (g c) (h c)) cs.
Proof. induction cs as [|c cs IH]; simpl; [done|by rewrite IH]. Qed.

Lemma py_binop_vmap {A} op (g h : A → float) cs :
  py_binop op (vec (map g cs)) (vec (map h cs))
    = Ok (vec (map (λ c, npy_binop op (g c) (h c)) cs)).
Proof.
  rewrite py_binop_vec_vec by by rewrite !length_map.
  by rewrite zip_with_map_same.
Qed.

Lemma py_binop_np_vmap {A} op x (h : A → float) cs :
  py_binop op (NpFloat x) (vec (map h cs))
    = Ok (vec (map (λ c, npy_binop op x (h c)) cs)).
Proof.
  unfold py_binop, vec. simpl. rewrite nd_map2_sc_vec. simpl.
  by rewrite <- !list_fmap_compose.
Qed.

Lemma py_binop_vmap_0d {A} op (g : A → float) cs y :
  py_binop op (vec (map g cs)) (NdArray (Sc y))
    = Ok (vec (map (λ c, npy_binop op (g c) y) cs)).
Proof.
  unfold py_binop, vec. simpl. rewrite nd_map2_vec_sc. simpl.
  by rewrite <- !list_fmap_compose.
Qed.




Lemma py_binop_np_scalar op x b y :
  is_scalar b y → py_binop op (NpFloat x) b = Ok (NpFloat (npy_binop op x y)).
Proof. destruct 1 as [n y Hn| |]; simpl; [by rewrite Hn|done..]. Qed.



Lemma py_binop_np_0d op x y :
  py_binop op (NpFloat x) (NdArray (Sc y)) = Ok (NpFloat (npy_binop op x y)).
Proof. reflexivity. Qed.




End Assembly.

(** ** The Hessian of a batch *)

Section Hessian.
Context `{Provider}.

(** C5, as the code has it: for a batch of exactly three parameter sets
    and a factor [A] that is an array, [A] is broadcast along the last
    axis of the stacked matrices: the entry [[i][j][k]] is
    [A[k] * M_i[j][k]], so that [hessian[i][0][1] = A[1] * ha_i] and
    [hessian[i][1][0] = A[0] * ha_i]. *)
Theorem C5_hessian_batch_of_three (o : obj) sh A0 A1 A2 p0 p1 p2 :
  o !! "hessian" = None →
  getattr o "_shape" = Ok sh → truthy sh = Ok true →
  prefactor o = Ok (vec [A0; A1; A2]) →
  partials_are o [p0; p1; p2] →
  ∃ h, hessian o = Ok (NdArray h) ∧
       h = Ar (map (columns_scaled A0 A1 A2) [p0; p1; p2]) ∧
       nd_at3 h 0 0 1 = Some (PrimFloat.mul A1 (p_ha p0)) ∧
       nd_at3 h 0 1 0 = Some (PrimFloat.mul A0 (p_ha p0)).
Proof.
  intros Hc Hsh Ht HA (Hhh & Hha & Hhb & Haa & Hab & Hbb).
  exists (Ar (map (columns_scaled A0 A1 A2) [p0; p1; p2])).
  split; [|by repeat split].
  unfold hessian. rewrite cached_miss by done.
  rewrite Hhh, Hha, Hhb, Haa, Hab, Hbb, HA, Hsh. cbn [bind].
  rewrite Ht. cbn [bind]. reflexivity.
Qed.

(** C4, as the code has it: for a batch of one parameter set [np.squeeze]
    takes the batch axis from the Hessian, and [cov], which still takes
    the instance for a batch, hands the rows of the one matrix to the
    inverse: it raises [LinAlgError] instead of returning the inverse of
    the negated Hessian. *)
Theorem C4_cov_batch_of_one (o : obj) sh A A0 p0 :
  o !! "cov" = None → o !! "hessian" = None →
  getattr o "_shape" = Ok sh → truthy sh = Ok true →
  prefactor o = Ok A → A = vec [A0] ∨ A = NpFloat A0 →
  partials_are o [p0] →
  hessian o = Ok (NdArray (scaled_sym A0 p0)) ∧
  cov o = Raise (LinAlgError inv_1d_msg).
Proof.
  intros Hc Hh Hsh Ht HA HA0 (Hhh & Hha & Hhb & Haa & Hab & Hbb).
  assert (hessian o = Ok (NdArray (scaled_sym A0 p0))) as Hhess.
  { unfold hessian. rewrite cached_miss by done.
    rewrite Hhh, Hha, Hhb, Haa, Hab, Hbb, HA, Hsh. cbn [bind].
    rewrite Ht. cbn [bind]. by destruct HA0 as [-> | ->]. }
  split; [done|].
  unfold cov. rewrite cached_miss by done.
  rewrite Hsh. cbn [bind]. rewrite Ht. cbn [bind]. rewrite Hhess. reflexivity.
Qed.

End Hessian.

(** ** Covariance and correlation *)




Lemma mapM_fmap_Ok {A B C} (f : B → result C) (h : A → B) (g : A → C) cs :
  (∀ c, f (h c) = Ok (g c)) → mapM f (h <$> cs) = Ok (g <$> cs).
Proof.
  intros Hf. induction cs as [|c cs IH]; csimpl; [done|]. by rewrite Hf, IH.
Qed.




Section Correlation.
Context `{Provider}.




End Correlation.

(** ** The theorems on instances *)


(** In the Hessian of the first of three parameter sets the entry [0][1]
    is [2 * 2] and the entry [1][0] is [1 * 2]. *)
Lemma C5_hessian_batch_of_three_witness :
  ∃ h, @hessian demo o_three = Ok (NdArray h) ∧
       h = Ar (map (columns_scaled 1 2 4) partials_three) ∧
       nd_at3 h 0 0 1 = Some (PrimFloat.mul 2 2) ∧
       nd_at3 h 0 1 0 = Some (PrimFloat.mul 1 2).
Proof.
  apply (@C5_hessian_batch_of_three demo o_three
           (PyList [PyMethod (vec (replicate 3 1%float)) "__len__"])).
  - reflexivity.
  - reflexivity.
  - reflexivity.
  - reflexivity.
  - by repeat split.
Defined.

Lemma C4_cov_batch_of_one_witness :
  @hessian demo o_one = Ok (NdArray (scaled_sym 2 (Partials 1 2 3 4 5 6))) ∧
  @cov demo o_one = Raise (LinAlgError inv_1d_msg).
Proof.
  apply (@C4_cov_batch_of_one demo o_one
           (PyList [PyMethod (vec (replicate 1 1%float)) "__len__"]) (vec [2%float])).
  - reflexivity.
  - reflexivity.
  - reflexivity.
  - reflexivity.
  - reflexivity.
  - by left.
  - by repeat split.
Defined.



(** ** The Hessian and the covariance where they are as intended *)

Lemma mapM_seq_lookup {A B} (f : nat → result B) (g : A → B) (l : list A) :
  (∀ i x, l !! i = Some x → f i = Ok (g x)) →
  mapM f (seq 0 (length l)) = Ok (map g l).
Proof.
  assert (∀ k, (∀ i x, l !! i = Some x → f (k + i) = Ok (g x)) →
               mapM f (seq k (length l)) = Ok (map g l)) as Hk.
  { induction l as [|x l IH]; intros k Hf; simpl; [done|].
    rewrite <- (Nat.add_0_r k) at 1. rewrite (Hf 0 x eq_refl). simpl.
    rewrite IH; [done|]. intros i y Hy.
    replace (S k + i) with (k + S i) by lia. by apply Hf. }
  intros Hf. by apply (Hk 0).
Qed.



Lemma py_getitem_vec {A} (g : A → float) cs i c :
  cs !! i = Some c → py_getitem (vec (map g cs)) i = Ok (NpFloat (g c)).
Proof.
  intros Hi. unfold vec, py_getitem.
  by rewrite <- list_fmap_compose, list_lookup_fmap, Hi.
Qed.

Lemma all_same_shape_33 {A} (g : A → nd) cs :
  (∀ c, shape (g c) = [3; 3]) → all_same_shape [3; 3] (map g cs) = true.
Proof.
  intros Hg. induction cs as [|c cs IH]; simpl; [done|].
  by rewrite Hg, bool_decide_eq_true_2.
Qed.

Lemma nd_stack_33 {A} (g : A → nd) cs :
  (∀ c, shape (g c) = [3; 3]) → nd_stack (map g cs) = Ok (Ar (map g cs)).
Proof.
  intros Hg. destruct cs as [|c cs]; [done|].
  unfold nd_stack. cbn [map]. by rewrite Hg, all_same_shape_33.
Qed.

(** A stack of at least two 3×3 matrices has no axis of length 1. *)
Lemma nd_squeeze_stack {A} (g : A → nd) (cs : list A) :
  (2 ≤ length cs)%nat → (∀ c, nd_squeeze (g c) = g c) →
  nd_squeeze (Ar (map g cs)) = Ar (map g cs).
Proof.
  intros Hlen Hg. destruct cs as [|c [|c' cs]]; [simpl in Hlen; lia..|].
  cbn [map nd_squeeze]. rewrite !Hg. do 3 f_equal.
  clear Hlen. induction cs as [|c'' cs IH]; simpl; [done|]. by rewrite Hg, IH.
Qed.

Section HessianIntended.
Context `{Provider}.

Lemma sym3_at_lookup {A} (g : A → partials) cs i c :
  cs !! i = Some c →
  sym3_at (vec (map (λ c, p_hh (g c)) cs)) (vec (map (λ c, p_ha (g c)) cs))
          (vec (map (λ c, p_hb (g c)) cs)) (vec (map (λ c, p_aa (g c)) cs))
          (vec (map (λ c, p_ab (g c)) cs)) (vec (map (λ c, p_bb (g c)) cs)) i
    = Ok (NdArray (sym_nd (g c))).
Proof.
  intros Hi. unfold sym3_at.
  rewrite !(py_getitem_vec _ cs i c Hi). reflexivity.
Qed.

(** The multiplication in the [try] branch cannot be broadcast when the
    batch has neither one nor three elements. *)
Lemma try_branch_raises {A} (g : A → float) (h : A → partials) (cs : list A) :
  (2 ≤ length cs)%nat → length cs ≠ 3 →
  py_mul (vec (map g cs)) (NdArray (Ar (map (λ c, sym_nd (h c)) cs)))
    = Raise (ValueError broadcast_msg).
Proof.
  intros H2 H3. destruct cs as [|c0 [|c1 cs]]; [simpl in H2; lia..|].
  unfold py_mul, py_binop, vec. cbn [is_numpy orb as_nd bind].
  rewrite nd_map2_eq. cbn [map rank]. cbn [Nat.ltb Nat.leb mapM bind].
  rewrite nd_map2_eq. cbn [sym_nd rank]. cbn [Nat.ltb Nat.leb mapM bind].
  rewrite nd_map2_eq. cbn [rank]. cbn [Nat.ltb Nat.leb length].
  destruct (length (map Sc (map g cs)) =? 1)%nat eqn:Hl.
  { apply Nat.eqb_eq in Hl. simpl in H3. rewrite !length_map in Hl. lia. }
  simpl. by rewrite Hl.
Qed.

(** X3: for a batch of at least two parameter sets other than three, each
    matrix of the Hessian is the factor of its element times the symmetric
    matrix of its second partials (the [except] branch). *)
Theorem X3_hessian_batch (o : obj) sh (cs : list (float * partials)) :
  o !! "hessian" = None →
  getattr o "_shape" = Ok sh → truthy sh = Ok true →
  (2 ≤ length cs)%nat → length cs ≠ 3 →
  batch_partials_are o cs →
  hessian o = Ok (NdArray (Ar (map (λ c, scaled_sym c.1 c.2) cs))).
Proof.
  intros Hc Hsh Ht H2 H3 (HA & Hhh & Hha & Hhb & Haa & Hab & Hbb).
  unfold hessian. rewrite cached_miss by done.
  rewrite <- !list_fmap_compose in *.
  rewrite Hhh, Hha, Hhb, Haa, Hab, Hbb, HA, Hsh. cbn [bind].
  rewrite Ht. cbn [bind].
  assert (py_len (vec (p_hh ∘ snd <$> cs)) = Ok (length cs)) as ->.
  { unfold vec, py_len. by rewrite !length_map. }
  cbn [bind].
  rewrite (mapM_seq_lookup _ (λ c, NdArray (sym_nd c.2)) cs)
    by (intros i c Hi; by apply (sym3_at_lookup snd)).
  cbn [bind]. unfold np_array at 1. cbn [as_nd].
  rewrite (mapM_fmap_Ok _ _ (λ c, sym_nd c.2)) by done.
  cbn [bind]. rewrite (nd_stack_33 (λ c, sym_nd c.2)) by done.
  cbn [bind].
  rewrite (try_branch_raises fst snd) by done.
  cbn [try_except].
  rewrite (mapM_seq_lookup _ (λ c, NdArray (scaled_sym c.1 c.2)) cs).
  - cbn [bind]. unfold np_array. cbn [as_nd].
    rewrite (mapM_fmap_Ok _ _ (λ c, scaled_sym c.1 c.2)) by done.
    cbn [bind]. rewrite (nd_stack_33 (λ c, scaled_sym c.1 c.2)) by done.
    cbn [bind np_squeeze as_nd].
    by rewrite (nd_squeeze_stack (λ c, scaled_sym c.1 c.2)).
  - intros i c Hi.
    rewrite (py_getitem_vec fst cs i c Hi). cbn [bind].
    assert (sym3_at (vec (p_hh ∘ snd <$> cs)) (vec (p_ha ∘ snd <$> cs))
                    (vec (p_hb ∘ snd <$> cs)) (vec (p_aa ∘ snd <$> cs))
                    (vec (p_ab ∘ snd <$> cs)) (vec (p_bb ∘ snd <$> cs)) i
            = Ok (NdArray (sym_nd c.2))) as -> by by apply (sym3_at_lookup snd).
    reflexivity.
Qed.

(** X2: the Hessian of one parameter set is the factor times the
    symmetric matrix of the six second partials, which are numbers or
    arrays of one entry (over the one mass). *)
Theorem X2_hessian_scalar (o : obj) sh A p :
  o !! "hessian" = None →
  getattr o "_shape" = Ok sh → truthy sh = Ok false →
  prefactor o = Ok (NpFloat A) →
  (_F_x_y o "h" "h" = Ok (NpFloat (p_hh p)) ∧ _F_x_y o "h" "a" = Ok (NpFloat (p_ha p)) ∧
   _F_x_y o "h" "b" = Ok (NpFloat (p_hb p)) ∧ _F_x_y o "a" "a" = Ok (NpFloat (p_aa p)) ∧
   _F_x_y o "a" "b" = Ok (NpFloat (p_ab p)) ∧ _F_x_y o "b" "b" = Ok (NpFloat (p_bb p)))
  ∨ partials_are o [p] →
  hessian o = Ok (NdArray (scaled_sym A p)).
Proof.
  intros Hc Hsh Ht HA [Hp | Hp];
    destruct Hp as (Hhh & Hha & Hhb & Haa & Hab & Hbb);
    unfold hessian; rewrite cached_miss by done;
    rewrite Hhh, Hha, Hhb, Haa, Hab, Hbb, HA, Hsh; cbn [bind];
    rewrite Ht; reflexivity.
Qed.

(** X1: [_F_x_y] puts a pair into its canonical order, so that the two
    orders of a mixed partial are one computation. *)
Theorem X1_F_x_y_canonical (o : obj) :
  _F_x_y o "a" "h" = _F_x_y o "h" "a" ∧
  _F_x_y o "b" "h" = _F_x_y o "h" "b" ∧
  _F_x_y o "b" "a" = _F_x_y o "a" "b".
Proof. by repeat split. Qed.



End HessianIntended.

Lemma X3_hessian_batch_witness :
  @hessian demo o_two = Ok (NdArray (Ar (map (λ c, scaled_sym c.1 c.2) partials_two))).
Proof.
  apply (@X3_hessian_batch demo o_two
           (PyList [PyMethod (vec (replicate 2 1%float)) "__len__"])).
  - reflexivity.
  - reflexivity.
  - reflexivity.
  - simpl. lia.
  - discriminate.
  - by repeat split.
Defined.

Lemma X2_hessian_scalar_witness :
  @hessian demo o_partials_scalar = Ok (NdArray (scaled_sym 2 (Partials 1 2 3 4 5 6))).
Proof.
  apply (@X2_hessian_scalar demo o_partials_scalar (PyList [])).
  - reflexivity.
  - reflexivity.
  - reflexivity.
  - reflexivity.
  - left. by repeat split.
Defined.



(** ** The constructor: the data parameters and [_shape] *)

Lemma list_remove_None_spec l :
  None_in l = true →
  ∃ l', list_remove_None l = Ok l' ∧
        filter (λ v, ¬ is_None v) l' = filter (λ v, ¬ is_None v) l.
Proof.
  induction l as [|x r IH]; [done|].
  unfold None_in. cbn [existsb list_remove_None]. fold (None_in r).
  destruct (is_None x) eqn:Hx.
  - intros _. exists r. split; [done|].
    by rewrite filter_cons_False by (intros Hn; apply Hn; by rewrite Hx).
  - intros Hr. destruct (IH Hr) as (r' & -> & Hf). cbn [bind].
    exists (x :: r'). split; [done|].
    rewrite !filter_cons_True by (rewrite Hx; exact id). by rewrite Hf.
Qed.

Lemma filter_None_in_false l :
  None_in l = false → filter (λ v, ¬ is_None v) l = l.
Proof.
  induction l as [|x r IH]; [done|].
  unfold None_in. cbn [existsb]. fold (None_in r).
  intros [Hx Hr]%orb_false_iff.
  rewrite filter_cons_True by (rewrite Hx; exact id). by rewrite IH.
Qed.

Lemma while_None_in_filter (l : list value) :
  while_None_in l = Ok (filter (λ v, ¬ is_None v) l).
Proof.
  funelim (while_None_in l).
  - by rewrite filter_None_in_false.
  - destruct (list_remove_None_spec l) as (l'' & Hl'' & Hf); [done|].
    rewrite Hr in Hl''. injection Hl'' as <-. by rewrite <- Hf.
  - destruct (list_remove_None_spec l) as (l'' & Hl'' & Hf); [done|].
    congruence.
Qed.

(** X6: the loop [while None in l: l.remove(None)] of the constructor
    always ends, without an exception, and leaves exactly the entries of
    [l] other than [None], in their order. *)
Theorem X6_shape_loop_filters (l : list value) :
  while_None_in l = Ok (filter (λ v, ¬ is_None v) l) ∧
  None_in (filter (λ v, ¬ is_None v) l) = false.
Proof.
  split; [apply while_None_in_filter|].
  induction l as [|x r IH]; [done|].
  destruct (is_None x) eqn:Hx.
  - by rewrite filter_cons_False by (intros Hn; apply Hn; by rewrite Hx).
  - rewrite filter_cons_True by (rewrite Hx; exact id).
    unfold None_in in *. cbn [existsb]. by rewrite Hx, IH.
Qed.

Lemma getattr_len_filter vs :
  filter (λ v, ¬ is_None v) (map getattr_len vs) = len_methods vs.
Proof.
  unfold len_methods. induction vs as [|v vs IH]; [done|].
  cbn [map]. unfold getattr_len at 1. destruct (has_len v) eqn:Hv.
  - rewrite filter_cons_True by exact id.
    rewrite (filter_cons_True (λ v, has_len v)) by (by rewrite Hv).
    cbn [map]. by rewrite IH.
  - rewrite filter_cons_False by (intros Hn; by apply Hn).
    by rewrite (filter_cons_False (λ v, has_len v)) by (rewrite Hv; exact id).
Qed.

Lemma truthy_len_methods vs :
  truthy (PyList (len_methods vs)) = Ok (existsb has_len vs).
Proof.
  unfold len_methods. cbn [truthy]. f_equal.
  induction vs as [|v vs IH]; [done|].
  cbn [existsb]. destruct (has_len v) eqn:Hv.
  - by rewrite filter_cons_True by (by rewrite Hv).
  - by rewrite filter_cons_False by (rewrite Hv; exact id).
Qed.

(** The only exception of a truth test is numpy's. *)
Lemma truthy_raises v e : truthy v = Raise e → e = ValueError ambiguous_msg.
Proof.
  induction v as [ |n|x|x|a|l IH|l IH|l IH|v name IH] using value_ind_nested;
    cbn [truthy]; try discriminate.
  - repeat case_match; try discriminate. by intros [= <-].
  - destruct l as [|x [|y l]]; try discriminate.
    + inversion IH; subst. auto.
    + by intros [= <-].
Qed.

Lemma truthy_vec_ambiguous l :
  (2 ≤ length l)%nat → truthy (vec l) = Raise (ValueError ambiguous_msg).
Proof.
  destruct l as [|x [|y l]]; simpl; [lia..|]. intros _.
  unfold vec. cbn [truthy map nd_flat concat app]. reflexivity.
Qed.

Section Construction2.
Context `{Provider}.

(** X7: with [mmin], [logHs], [alpha], [beta] and [scale] stored by the
    parent constructor, [_shape] is the list of the bound [__len__]
    methods of those of them that have one, in that order; it is true (the
    instance counts as a batch) exactly when one of the five has a
    [__len__], and empty for five numbers. *)
Theorem X7_init_shape kw o s0 vs :
  __init__ kw = Ok o → parent_instance kw s0 → stored s0 shape_names vs →
  o !! "_shape" = Some (PyList (len_methods vs)) ∧
  truthy (PyList (len_methods vs)) = Ok (existsb has_len vs).
Proof.
  intros Hinit (m & logm & Hm & Hlogm & Hs0) Hvs.
  split; [|apply truthy_len_methods].
  rewrite (init_with_log_mmin _ _ Hm), Hlogm in Hinit. cbn [bind] in Hinit.
  rewrite Hs0 in Hinit. cbn [bind] in Hinit. cbv zeta in Hinit.
  apply bind_Ok_inv in Hinit as (vh & _ & Hinit).
  apply bind_Ok_inv in Hinit as (va & _ & Hinit).
  apply bind_Ok_inv in Hinit as (vb & _ & Hinit).
  apply bind_Ok_inv in Hinit as (ad & _ & Hinit).
  apply bind_Ok_inv in Hinit as (sc & _ & Hinit).
  apply bind_Ok_inv in Hinit as (s & _ & Hinit).
  apply bind_Ok_inv in Hinit as (sh0 & Hsh0 & Hinit).
  rewrite while_None_in_filter in Hinit. cbn [bind] in Hinit.
  injection Hinit as <-. rewrite lookup_insert_eq. do 2 f_equal.
  unfold stored, shape_names in Hvs.
  apply Forall2_cons_inv_l in Hvs as (v1 & ? & H1 & Hvs & ->).
  apply Forall2_cons_inv_l in Hvs as (v2 & ? & H2 & Hvs & ->).
  apply Forall2_cons_inv_l in Hvs as (v3 & ? & H3 & Hvs & ->).
  apply Forall2_cons_inv_l in Hvs as (v4 & ? & H4 & Hvs & ->).
  apply Forall2_cons_inv_l in Hvs as (v5 & ? & H5 & Hvs & ->).
  apply Forall2_nil_inv_l in Hvs as ->.
  unfold with_V_lnA in Hsh0. cbn [mapM] in Hsh0.
  rewrite (getattr_stored _ "mmin" v1) in Hsh0 by (by rewrite !lookup_insert_ne).
  rewrite (getattr_stored _ "logHs" v2) in Hsh0 by (by rewrite !lookup_insert_ne).
  rewrite (getattr_stored _ "alpha" v3) in Hsh0 by (by rewrite !lookup_insert_ne).
  rewrite (getattr_stored _ "beta" v4) in Hsh0 by (by rewrite !lookup_insert_ne).
  rewrite (getattr_stored _ "scale" v5) in Hsh0 by (by rewrite !lookup_insert_ne).
  cbn [bind] in Hsh0. injection Hsh0 as <-.
  apply (getattr_len_filter [_; _; _; _; _]).
Qed.

(** X8: a data parameter that is passed with a true value is stored as
    it was passed. *)
Theorem X8_init_truthy_data kw o d x :
  __init__ kw = Ok o → d ∈ ["logHsd"; "alphad"; "betad"] →
  kw !! d = Some x → truthy x = Ok true → o !! d = Some x.
Proof.
  intros Hinit Hd Hx Ht.
  apply init_Ok_inv in Hinit as (s0 & vh & va & vb & s & sh & _ & Hh & Ha & Hb & ->).
  set_unfold in Hd. destruct Hd as [->|[->|[->|[]]]];
    rewrite Hx in *; cbn [default] in *.
  - rewrite py_or_truthy in Hh by done. injection Hh as <-.
    rewrite !lookup_insert_ne by done. apply lookup_insert_eq.
  - rewrite py_or_truthy in Ha by done. injection Ha as <-.
    rewrite !lookup_insert_ne by done. apply lookup_insert_eq.
  - rewrite py_or_truthy in Hb by done. injection Hb as <-.
    rewrite !lookup_insert_ne by done. apply lookup_insert_eq.
Qed.

(** [a or self.p] with [p] stored: it returns, or the truth test of [a]
    raises numpy's [ValueError]. *)
Lemma py_or_stored a (o : obj) p v :
  o !! p = Some v →
  py_or a (getattr o p) = Raise (ValueError ambiguous_msg) ∨
  ∃ w, py_or a (getattr o p) = Ok w.
Proof.
  intros Hp. unfold py_or. destruct (truthy a) as [[]|e] eqn:Ha; cbn [bind].
  - right. eauto.
  - right. rewrite (getattr_stored _ _ _ Hp). eauto.
  - left. by rewrite (truthy_raises _ _ Ha).
Qed.

(** X9: a data parameter passed as an array of two or more entries makes
    the constructor raise numpy's [ValueError] (the truth value of the
    array is ambiguous): [x or self.p] takes the truth value of [x]. *)
Theorem X9_init_array_data_raises kw s0 d l vh va vb :
  parent_instance kw s0 →
  s0 !! "logHs" = Some vh → s0 !! "alpha" = Some va → s0 !! "beta" = Some vb →
  d ∈ ["logHsd"; "alphad"; "betad"] →
  kw !! d = Some (vec l) → (2 ≤ length l)%nat →
  __init__ kw = Raise (ValueError ambiguous_msg).
Proof.
  intros (m & logm & Hm & Hlogm & Hs0) Hvh Hva Hvb Hd Hx Hl.
  rewrite (init_with_log_mmin _ _ Hm), Hlogm. cbn [bind].
  rewrite Hs0. cbn [bind]. cbv zeta.
  pose proof (truthy_vec_ambiguous l Hl) as Hamb.
  assert (∀ b, py_or (vec l) b = Raise (ValueError ambiguous_msg)) as Hor.
  { intros b. unfold py_or. by rewrite Hamb. }
  set_unfold in Hd. destruct Hd as [->|[->|[->|[]]]]; rewrite Hx; cbn [default].
  - by rewrite Hor.
  - destruct (py_or_stored (default PyNone (kw !! "logHsd")) (with_V_lnA kw s0)
                "logHs" vh) as [->|[w ->]]; [|done|];
      [by (unfold with_V_lnA; rewrite !lookup_insert_ne)|].
    cbn [bind]. by rewrite Hor.
  - destruct (py_or_stored (default PyNone (kw !! "logHsd")) (with_V_lnA kw s0)
                "logHs" vh) as [->|[w ->]]; [|done|];
      [by (unfold with_V_lnA; rewrite !lookup_insert_ne)|].
    cbn [bind].
    destruct (py_or_stored (default PyNone (kw !! "alphad"))
                (<["logHsd" := w]> (with_V_lnA kw s0)) "alpha" va)
      as [->|[w' ->]]; [|done|];
      [by (unfold with_V_lnA; rewrite !lookup_insert_ne)|].
    cbn [bind]. by rewrite Hor.
Qed.

End Construction2.

Lemma parent_batch_logHs_spec :
  @parent_instance demo kw_batch_logHs
    (<["logm" := NdArray (Ar [Sc 11])]> (parent_kwargs kw_batch_logHs)).
Proof. exists (PyInt 11), (NdArray (Ar [Sc 11])). by vm_compute. Defined.

Lemma X7_init_shape_witness :
  (instance_of kw_scalar !! "_shape" = Some (PyList []) ∧
   truthy (PyList []) = Ok false) ∧
  (instance_of kw_batch_logHs !! "_shape"
     = Some (PyList [PyMethod (vec [14.5%float; 14.25%float]) "__len__"]) ∧
   truthy (PyList [PyMethod (vec [14.5%float; 14.25%float]) "__len__"]) = Ok true).
Proof.
  split.
  - apply (@X7_init_shape demo kw_scalar (instance_of kw_scalar) parent_scalar
             [NpFloat 100000000000; PyFloat 14.5; PyFloat (-1.5); PyFloat 0.75; PyInt 0]).
    + reflexivity.
    + exact parent_scalar_spec.
    + repeat constructor.
  - apply (@X7_init_shape demo kw_batch_logHs (instance_of kw_batch_logHs)
             (<["logm" := NdArray (Ar [Sc 11])]> (parent_kwargs kw_batch_logHs))
             [NpFloat 100000000000; vec [14.5%float; 14.25%float]; PyFloat (-1.5);
              PyFloat 0.75; PyInt 0]).
    + reflexivity.
    + exact parent_batch_logHs_spec.
    + repeat constructor.
Defined.

Lemma X8_init_truthy_data_witness :
  instance_of (<["alphad" := PyFloat (-1.75)]> kw_scalar) !! "alphad"
    = Some (PyFloat (-1.75)).
Proof.
  apply (@X8_init_truthy_data demo (<["alphad" := PyFloat (-1.75)]> kw_scalar) _ "alphad").
  - reflexivity.
  - apply list_elem_of_further, list_elem_of_here.
  - reflexivity.
  - reflexivity.
Defined.

Lemma X9_init_array_data_raises_witness :
  @__init__ demo kw_array_data = Raise (ValueError ambiguous_msg).
Proof.
  apply (@X9_init_array_data_raises demo kw_array_data
           (<["logm" := NdArray (Ar [Sc 11])]> (parent_kwargs kw_array_data)) "alphad"
           [(-1.5)%float; (-1.75)%float] (PyFloat 14.5) (PyFloat (-1.5)) (PyFloat 0.75)).
  - exists (PyInt 11), (NdArray (Ar [Sc 11])). by vm_compute.
  - reflexivity.
  - reflexivity.
  - reflexivity.
  - apply list_elem_of_further, list_elem_of_here.
  - reflexivity.
  - simpl. lia.
Defined.

(** ** [_hyperReg]: the empty batch and the array of evaluation points *)






Section HyperReg2.
Context `{Provider}.

(** X10: on an empty batch ([a[0]] an array of no entries) the batched
    branch of [_hyperReg] returns the empty array: the loop of line 109 is
    not entered.  With C2: the branch returns for the empty batch only. *)
Theorem X10_hyperReg_empty_batch (b0 : list float) (a' b' : list value) :
  (∀ lz, _hyperReg (PyList (vec [] :: a')) (PyList (vec b0 :: b')) (vec lz) = Ok (vec [])) ∧
  (∀ x, _hyperReg (PyList (vec [] :: a')) (PyList (vec b0 :: b')) (PyFloat x) = Ok (vec []) ∧
        _hyperReg (PyList (vec [] :: a')) (PyList (vec b0 :: b')) (NpFloat x) = Ok (vec [])).
Proof.
  split; [intros lz|intros x; split]; unfold _hyperReg;
    change (py_getitem (PyList (vec [] :: a')) 0) with (Ok (vec []));
    change (py_getitem (PyList (vec b0 :: b')) 0) with (Ok (vec b0));
    cbn [bind has_len vec np_zeros_like as_nd py_len py_iter map length
         np_atleast_1d Nat.eqb np_repeat nd_flat concat app replicate zip3
         enumerate enumerate_from for_each snd]; try reflexivity.
  destruct lz as [|z0 [|z1 lz]]; reflexivity.
Qed.




End HyperReg2.


(** ** Integer parameters, the unit quantities and the normalisations *)

Lemma float_add_0_1 (x : float) :
  PrimFloat.add (PrimFloat.add x 0) 1 = PrimFloat.add x 1.
Proof.
  destruct (Prim2SF x) as [s| | |s m e] eqn:Hx.
  - rewrite <- (SF2Prim_Prim2SF x), Hx. by destruct s; vm_compute.
  - f_equal. apply Prim2SF_inj. by rewrite add_spec, Hx.
  - f_equal. apply Prim2SF_inj. by rewrite add_spec, Hx.
  - f_equal. apply Prim2SF_inj. by rewrite add_spec, Hx.
Qed.

Lemma int_to_float_0 : int_to_float 0 = Ok 0%float.
Proof. reflexivity. Qed.

Lemma int_to_float_10 : int_to_float 10 = Ok 10%float.
Proof. reflexivity. Qed.

Section Quantities.
Context `{Provider}.

(** A constructed instance, with the shifted slope the constructor
    computed. *)
Lemma init_Ok_inv_full kw o :
  __init__ kw = Ok o →
  ∃ s0 vh va vb sc s sh,
    parent_instance kw s0 ∧
    py_or (default PyNone (kw !! "logHsd")) (getattr (with_V_lnA kw s0) "logHs") = Ok vh ∧
    py_or (default PyNone (kw !! "alphad"))
          (getattr (<["logHsd" := vh]> (with_V_lnA kw s0)) "alpha") = Ok va ∧
    py_or (default PyNone (kw !! "betad"))
          (getattr (<["alphad" := va]> (<["logHsd" := vh]> (with_V_lnA kw s0))) "beta")
      = Ok vb ∧
    getattr (<["betad" := vb]> (<["alphad" := va]> (<["logHsd" := vh]>
               (with_V_lnA kw s0)))) "scale" = Ok sc ∧
    py_add va sc = Ok s ∧
    o = <["_shape" := PyList sh]> (<["_alphad_s" := s]> (<["betad" := vb]>
          (<["alphad" := va]> (<["logHsd" := vh]> (with_V_lnA kw s0))))).
Proof.
  intros Hinit.
  destruct (kw !! "log_mmin") as [m|] eqn:Hm;
    [|by rewrite init_without_log_mmin in Hinit].
  rewrite (init_with_log_mmin _ _ Hm) in Hinit.
  apply bind_Ok_inv in Hinit as (logm & Hlogm & Hinit).
  apply bind_Ok_inv in Hinit as (s0 & Hs0 & Hinit). cbv zeta in Hinit.
  apply bind_Ok_inv in Hinit as (vh & Hvh & Hinit).
  apply bind_Ok_inv in Hinit as (va & Hva & Hinit).
  apply bind_Ok_inv in Hinit as (vb & Hvb & Hinit).
  apply bind_Ok_inv in Hinit as (ad & Had & Hinit).
  apply bind_Ok_inv in Hinit as (sc & Hsc & Hinit).
  apply bind_Ok_inv in Hinit as (s & Hs & Hinit).
  apply bind_Ok_inv in Hinit as (sh0 & _ & Hinit).
  apply bind_Ok_inv in Hinit as (sh & _ & Hinit).
  injection Hinit as <-.
  rewrite (getattr_stored _ _ va) in Had
    by (rewrite lookup_insert_ne by done; apply lookup_insert_eq).
  injection Had as <-.
  exists s0, vh, va, vb, sc, s, sh. repeat split; try done.
  by exists m, logm.
Qed.

(** X12: constructed from integer [alpha], [beta] and [scale], with the
    data parameters left out, the instance has the floor quotient
    [(alpha + scale + 1) // beta] for [_zd] (Python 2 divides two ints so),
    and [ZeroDivisionError] with the message of the integer division when
    [beta] is [0]. *)
Theorem X12_zd_int_floor kw o s0 (a b s : Z) :
  __init__ kw = Ok o → parent_instance kw s0 →
  kw !! "alphad" = None → kw !! "betad" = None →
  s0 !! "alpha" = Some (PyInt a) → s0 !! "beta" = Some (PyInt b) →
  s0 !! "scale" = Some (PyInt s) → s0 !! "_zd" = None →
  _zd o = if (b =? 0)%Z
          then Raise (ZeroDivisionError "integer division or modulo by zero")
          else Ok (PyInt ((a + s + 1) / b)).
Proof.
  intros Hinit Hp Hkad Hkbd Ha Hb Hs Hzd.
  apply init_Ok_inv_full in Hinit
    as (s0' & vh & va & vb & sc & ads & sh & Hp' & _ & Hva & Hvb & Hsc & Hads & ->).
  rewrite <- (parent_instance_unique _ _ _ Hp Hp') in *. clear Hp'.
  unfold with_V_lnA in *.
  rewrite Hkad in Hva. rewrite Hkbd in Hvb. cbn [default] in *.
  rewrite py_or_falsy in Hva, Hvb by done.
  rewrite (getattr_stored _ _ (PyInt a)) in Hva by (by rewrite !lookup_insert_ne).
  rewrite (getattr_stored _ _ (PyInt b)) in Hvb by (by rewrite !lookup_insert_ne).
  rewrite (getattr_stored _ _ (PyInt s)) in Hsc by (by rewrite !lookup_insert_ne).
  injection Hva as <-. injection Hvb as <-. injection Hsc as <-.
  injection Hads as <-.
  unfold _zd. rewrite cached_miss by (by rewrite !lookup_insert_ne).
  rewrite (getattr_stored _ _ (PyInt (a + s)))
    by (rewrite lookup_insert_ne by done; apply lookup_insert_eq).
  cbn [bind py_add py_binop py_int_op].
  rewrite (getattr_stored _ _ (PyInt b))
    by (rewrite !lookup_insert_ne by done; apply lookup_insert_eq).
  reflexivity.
Qed.

(** X13: with the data cut-off [betad] an int of at least 2, the factor
    [a = 1/self.betad] of [_u_b_b] is the integer quotient [0]: whatever
    [_u_b_b] returns is [0] times the sum [b + c + d], and with the
    quantities it reads given as numpy scalars it returns [0 * s]. *)
Theorem X13_u_b_b_int_betad (o : obj) (n : Z) :
  o !! "_u_b_b" = None → o !! "betad" = Some (PyInt n) → (2 ≤ n)%Z →
  (∀ v, _u_b_b o = Ok v → ∃ s, py_mul (PyInt 0) s = Ok v) ∧
  (∀ hsd hs beta ub xd g1 gi gb,
     o !! "Hsd" = Some (NpFloat hsd) → o !! "Hs" = Some (NpFloat hs) →
     o !! "beta" = Some beta → (∃ x, is_scalar beta x) →
     o !! "_u_b" = Some (NpFloat ub) → o !! "_xd" = Some (NpFloat xd) →
     o !! "_G1d_p1" = Some (NpFloat g1) → o !! "_gammainc_z1xd" = Some (NpFloat gi) →
     o !! "_Gbard_p1" = Some (NpFloat gb) →
     (∃ x, int_to_float n = Ok x) →
     ∃ s, _u_b_b o = Ok (NpFloat (PrimFloat.mul 0 s))).
Proof.
  intros Hc Hbd Hn.
  assert (py_div (PyInt 1) (PyInt n) = Ok (PyInt 0)) as Hdiv.
  { unfold py_div. cbn [py_binop py_int_op].
    destruct (n =? 0)%Z eqn:H0; [lia|]. by rewrite Z.div_small by lia. }
  split.
  - intros v Hv. unfold _u_b_b in Hv. rewrite cached_miss in Hv by done.
    apply bind_Ok_inv in Hv as (hsd & _ & Hv).
    apply bind_Ok_inv in Hv as (hs & _ & Hv).
    apply bind_Ok_inv in Hv as (hfrac & _ & Hv).
    rewrite (getattr_stored _ _ _ Hbd) in Hv. cbn [bind] in Hv.
    rewrite Hdiv in Hv. cbn [bind] in Hv.
    repeat (apply bind_Ok_inv in Hv as (? & _ & Hv)).
    eauto.
  - intros hsd hs beta ub xd g1 gi gb Hhsd Hhs Hbeta [bx Hbx] Hub Hxd Hg1 Hgi Hgb [nx Hnx].
    unfold _u_b_b. rewrite cached_miss by done.
    unfold Hsd, _u_b, _xd, _G1d_p1, _gammainc_z1xd, _Gbard_p1.
    rewrite !(cached_hit _ _ _ _ Hhsd), !(cached_hit _ _ _ _ Hub),
      !(cached_hit _ _ _ _ Hxd), !(cached_hit _ _ _ _ Hg1),
      !(cached_hit _ _ _ _ Hgi), !(cached_hit _ _ _ _ Hgb).
    rewrite !(getattr_stored _ _ _ Hhs), !(getattr_stored _ _ _ Hbd),
      !(getattr_stored _ _ _ Hbeta).
    cbn [bind]. rewrite Hdiv. cbn [bind].
    unfold py_div at 1. rewrite py_binop_np_np. cbn [bind].
    unfold np_log. rewrite !(np_ufunc_scalar _ _ _ (scalar_np _)). cbn [bind].
    unfold py_mul, py_add, py_pow, py_div.
    repeat first
      [ rewrite py_binop_np_np
      | rewrite (py_binop_scalar_np _ _ _ _ (scalar_int _ _ Hnx))
      | rewrite (py_binop_np_scalar _ _ _ _ (scalar_int _ _ Hnx))
      | rewrite (py_binop_np_scalar _ _ _ _ Hbx)
      | rewrite (py_binop_scalar_np _ _ _ _ (scalar_int 0 0 eq_refl))
      | progress cbn [bind] ].
    eexists. reflexivity.
Qed.


Lemma py_binop_int_vec op n x lb :
  int_to_float n = Ok x →
  py_binop op (PyInt n) (vec lb) = Ok (vec (map (npy_binop op x) lb)).
Proof.
  intros Hn. unfold py_binop, vec. cbn [is_numpy orb as_nd]. rewrite Hn. cbn [bind].
  rewrite nd_map2_sc_vec. cbn [bind]. by destruct lb.
Qed.

(** X14: for a batch of exactly three parameter sets whose factor [A]
    has three equal entries (as when [_qd_nos / _qd] is the same for all),
    the broadcast of the [try] branch does no harm: every matrix of the
    Hessian is the factor times the symmetric matrix of its second
    partials. *)
Theorem X14_hessian_three_equal_factors (o : obj) sh c p0 p1 p2 :
  o !! "hessian" = None →
  getattr o "_shape" = Ok sh → truthy sh = Ok true →
  prefactor o = Ok (vec [c; c; c]) →
  partials_are o [p0; p1; p2] →
  hessian o = Ok (NdArray (Ar (map (scaled_sym c) [p0; p1; p2]))).
Proof.
  intros Hc Hsh Ht HA (Hhh & Hha & Hhb & Haa & Hab & Hbb).
  unfold hessian. rewrite cached_miss by done.
  rewrite Hhh, Hha, Hhb, Haa, Hab, Hbb, HA, Hsh. cbn [bind].
  rewrite Ht. cbn [bind]. reflexivity.
Qed.

(** X15: on a batch whose shape exponent [_zd] is an array, the
    derivative [_F_x("a")] raises: it reads [_t_a = _t / _alpha_s], and
    [_t] has no value there. *)
Theorem X15_F_a_batched_raises (o : obj) zd0 zds xd :
  o !! "_t_a" = None → o !! "_t" = None →
  _zd o = Ok (vec (zd0 :: zds)) → _xd o = Ok xd → batch_z (S (length zds)) xd →
  raises (_F_x o "a").
Proof.
  intros Hta Ht Hzd Hxd Hbz. apply not_Ok_raises. intros v Hv.
  unfold _F_x in Hv.
  apply bind_Ok_inv in Hv as (gx & _ & Hv).
  apply bind_Ok_inv in Hv as (qx & _ & Hv).
  apply bind_Ok_inv in Hv as (ux & _ & Hv).
  apply bind_Ok_inv in Hv as (tx & Htx & _).
  change (getattr_dyn o (fmt1 "_t_" "a")) with (_t_a o) in Htx.
  unfold _t_a in Htx. rewrite cached_miss in Htx by done.
  apply bind_Ok_inv in Htx as (t & Htv & _).
  by eapply t_batched_raises in Htv.
Qed.

(** X16: the unit quantity [_xd = (mmin / 10**logHsd)**betad] of a batch
    (arrays [logHsd], [betad] of one length, [mmin] a numpy scalar) is the
    array of the values [xd_value mmin h_i b_i], and [xd_value mmin h b] is
    what [_xd] is for the one parameter set [h], [b] given as numpy
    scalars: the batch is evaluated element by element. *)
Theorem X16_xd_elementwise (m : float) :
  (∀ (o : obj) lh lb,
     o !! "Hsd" = None → o !! "_yd" = None → o !! "_xd" = None →
     o !! "mmin" = Some (NpFloat m) →
     o !! "logHsd" = Some (vec lh) → o !! "betad" = Some (vec lb) →
     length lh = length lb →
     _xd o = Ok (vec (zip_with (xd_value m) lh lb))) ∧
  (∀ (o : obj) h b,
     o !! "Hsd" = None → o !! "_yd" = None → o !! "_xd" = None →
     o !! "mmin" = Some (NpFloat m) →
     o !! "logHsd" = Some (NpFloat h) → o !! "betad" = Some (NpFloat b) →
     _xd o = Ok (NpFloat (xd_value m h b))).
Proof.
  split.
  - intros o lh lb HH Hy Hx Hm Hlh Hlb Hlen.
    unfold _xd, _yd, Hsd. rewrite !cached_miss by done.
    rewrite (getattr_stored _ _ _ Hm), (getattr_stored _ _ _ Hlh),
      (getattr_stored _ _ _ Hlb). cbn [bind].
    unfold py_pow, py_div. rewrite (py_binop_int_vec _ _ _ _ int_to_float_10).
    cbn [bind]. rewrite py_binop_np_vmap. cbn [bind].
    rewrite py_binop_vec_vec by (by rewrite !length_map).
    f_equal. f_equal. clear. revert lb.
    induction lh as [|h lh IH]; intros [|b lb]; cbn; [done..|]. by rewrite IH.
  - intros o h b HH Hy Hx Hm Hh Hb.
    unfold _xd, _yd, Hsd. rewrite !cached_miss by done.
    rewrite (getattr_stored _ _ _ Hm), (getattr_stored _ _ _ Hh),
      (getattr_stored _ _ _ Hb). cbn [bind].
    unfold py_pow, py_div.
    rewrite (py_binop_scalar_np _ _ _ _ (scalar_int 10 10 eq_refl)).
    cbn [bind]. rewrite py_binop_np_np. cbn [bind].
    by rewrite py_binop_np_np.
Qed.

Lemma py_add_0_then_1 ad ads :
  is_param ad → py_add ad (PyInt 0) = Ok ads →
  py_add ads (PyInt 1) = py_add ad (PyInt 1).
Proof.
  intros [n|x|x|l]; unfold py_add.
  - cbn [py_binop py_int_op]. intros [= <-]. cbn [py_binop py_int_op].
    by rewrite Z.add_0_r.
  - cbn [py_binop]. rewrite int_to_float_0, int_to_float_1. cbn [bind py_float_op].
    intros [= <-]. cbn [py_binop]. rewrite int_to_float_1. cbn [bind py_float_op].
    by rewrite float_add_0_1.
  - rewrite (py_binop_np_scalar _ _ _ _ (scalar_int 0 0 eq_refl)). intros [= <-].
    rewrite !(py_binop_np_scalar _ _ _ _ (scalar_int 1 1 eq_refl)).
    cbn [npy_binop]. by rewrite float_add_0_1.
  - rewrite (py_binop_vec_int _ _ _ _ int_to_float_0). intros [= <-].
    rewrite !(py_binop_vec_int _ _ _ _ int_to_float_1). cbn [npy_binop].
    do 2 f_equal. rewrite map_map. apply map_ext. intros a. apply float_add_0_1.
Qed.

(** X17: when the shifted slope [_alphad_s] is [alphad + 0] (the
    constructor's sum with [scale = 0]), [_qd_nos] and [_qd] are one
    computation: they return the same value or raise the same exception,
    whatever the special functions are. *)
Theorem X17_qd_nos_is_qd_without_scale (o : obj) ad ads :
  o !! "_qd" = None → o !! "_qd_nos" = None → o !! "_zd" = None →
  o !! "alphad" = Some ad → is_param ad →
  o !! "_alphad_s" = Some ads → py_add ad (PyInt 0) = Ok ads →
  _qd_nos o = _qd o.
Proof.
  intros Hq Hqn Hz Had Hp Hads Hsum.
  unfold _qd_nos, _qd, _zd. rewrite !cached_miss by done.
  rewrite (getattr_stored _ _ _ Had), (getattr_stored _ _ _ Hads). cbn [bind].
  rewrite (py_add_0_then_1 _ _ Hp Hsum).
  destruct (py_add ad (PyInt 1)) as [n|e]; [|done]. cbn [bind].
  destruct (getattr o "betad") as [b|e]; [|done]. cbn [bind].
  by destruct (py_div n b).
Qed.

End Quantities.

Lemma X12_zd_int_floor_witness :
  @_zd demo (instance_of kw_int) = Ok (PyInt (-1)).
Proof.
  apply (@X12_zd_int_floor demo kw_int (instance_of kw_int)
           (<["logm" := NdArray (Ar [Sc 11])]> (parent_kwargs kw_int)) (-2) 2 0).
  - reflexivity.
  - exists (PyInt 11), (NdArray (Ar [Sc 11])). by vm_compute.
  - reflexivity.
  - reflexivity.
  - reflexivity.
  - reflexivity.
  - reflexivity.
  - reflexivity.
Defined.

Lemma X13_u_b_b_int_betad_witness :
  ∃ s, @_u_b_b demo o_int_betad = Ok (NpFloat (PrimFloat.mul 0 s)).
Proof.
  apply (proj2 (@X13_u_b_b_int_betad demo o_int_betad 2 eq_refl eq_refl ltac:(lia))
           4%float 2%float (PyInt 2) 3%float 0.5%float 5%float 0.25%float 7%float);
    try reflexivity.
  - exists 2%float. by constructor.
  - by exists 2%float.
Defined.

Lemma X14_hessian_three_equal_factors_witness :
  @hessian demo o_three_equal = Ok (NdArray (Ar (map (scaled_sym 2) partials_three))).
Proof.
  apply (@X14_hessian_three_equal_factors demo o_three_equal
           (PyList [PyMethod (vec (replicate 3 1%float)) "__len__"])).
  - reflexivity.
  - reflexivity.
  - reflexivity.
  - reflexivity.
  - by repeat split.
Defined.

Lemma X15_F_a_batched_raises_witness : raises (@_F_x demo_special o_batch2 "a").
Proof.
  apply (@X15_F_a_batched_raises demo_special o_batch2 (-1)%float [(-3)%float]
           (vec [10000000000%float; 10000000000%float])).
  - reflexivity.
  - reflexivity.
  - reflexivity.
  - reflexivity.
  - right. exists [10000000000%float; 10000000000%float].
    split; [reflexivity|right; reflexivity].
Defined.

Lemma X16_xd_elementwise_witness :
  @_xd demo (instance_of kw_batch2)
    = Ok (vec (zip_with (@xd_value demo 100000000000) [14.5%float; 14.25%float]
                        [0.5%float; 0.25%float])) ∧
  @_xd demo (instance_of kw_np) = Ok (NpFloat (@xd_value demo 100000000000 14.5 0.5)).
Proof.
  destruct (@X16_xd_elementwise demo 100000000000) as [Hb Hs].
  split.
  - apply Hb; reflexivity.
  - apply Hs; reflexivity.
Defined.

Lemma X17_qd_nos_is_qd_without_scale_witness :
  @_qd_nos demo_special (instance_of kw_scalar) = @_qd demo_special (instance_of kw_scalar).
Proof.
  apply (@X17_qd_nos_is_qd_without_scale demo_special (instance_of kw_scalar)
           (PyFloat (-1.5)) (PyFloat (-1.5))).
  - reflexivity.
  - reflexivity.
  - reflexivity.
  - reflexivity.
  - constructor.
  - reflexivity.
  - reflexivity.
Defined.

(** ** The derivative with respect to the scale mass *)

Section Gradient.
Context `{Provider}.

(** X20: on a batch the derivative [_F_x("h")] is, element by element,
    [q_d * (g_h - q_h) + 0 - u_h]; [_t_h] is the constant [0] and [_t] is
    not evaluated, so the derivative has a value also where [lnL] has
    none. *)
Theorem X20_F_h_batch (o : obj) (cs : list h_terms) :
  o !! "_t_h" = None →
  _qd o = Ok (vec (map h_qd cs)) →
  getattr o "_lng_h" = Ok (vec (map h_lng cs)) →
  getattr o "_lnq_h" = Ok (vec (map h_lnq cs)) →
  _u_h o = Ok (vec (map h_u cs)) →
  _F_x o "h" = Ok (vec (map F_h_value cs)).
Proof.
  intros Hth Hqd Hg Hq Hu. unfold _F_x.
  change (getattr_dyn o (fmt1 "_lng_" "h")) with (getattr o "_lng_h").
  change (getattr_dyn o (fmt1 "_lnq_" "h")) with (getattr o "_lnq_h").
  change (getattr_dyn o (fmt1 "_u_" "h")) with (_u_h o).
  change (getattr_dyn o (fmt1 "_t_" "h")) with (_t_h o).
  rewrite Hg, Hq, Hu, Hqd. unfold _t_h. rewrite cached_miss by done. cbn [bind].
  unfold py_sub, py_mul, py_add.
  rewrite py_binop_vmap. cbn [bind]. rewrite py_binop_vmap. cbn [bind].
  rewrite (py_binop_vec_int _ _ 0 0%float eq_refl). cbn [bind].
  rewrite map_map. rewrite py_binop_vmap. reflexivity.
Qed.

End Gradient.

Lemma X20_F_h_batch_witness :
  @_F_x demo_special o_batch2_h "h" = Ok (vec (map F_h_value h_terms_batch)).
Proof.
  apply (@X20_F_h_batch demo_special o_batch2_h h_terms_batch); reflexivity.
Defined.

(** ** [physical_dependence.py]: where the keyword dictionaries go *)

Lemma bind_kwargs_unexpected fname params bound kw k v :
  (k, v) ∈ kw → k ∉ params → raises (bind_kwargs fname params bound kw).
Proof.
  intros Hin Hk. revert bound.
  induction kw as [|[k' v'] kw IH]; intros bound; [by apply elem_of_nil in Hin|].
  cbn [bind_kwargs].
  destruct (bool_decide (k' ∈ params)) eqn:Hk'; cbn [negb]; [|by eexists].
  destruct (bool_decide (k' ∈ bound)); [by eexists|].
  apply elem_of_cons in Hin as [[= <- <-]|Hin].
  - apply bool_decide_eq_true in Hk'. done.
  - by apply IH.
Qed.

Lemma raises_bind {A B} (m : result A) (k : A → result B) :
  raises m → raises (bind m k).
Proof. intros [e ->]. by exists e. Qed.

Lemma raises_bind_k {A B} (m : result A) (k : A → result B) :
  (∀ a, raises (k a)) → raises (bind m k).
Proof. intros Hk. destruct m as [a|e]; [apply Hk|by exists e]. Qed.

Section PhysicalDependenceFacts.
Context `{Provider}.
Context (mrp : value → value → value → value → value → value → value → value →
               kwargs → result value).

(** X18: [mrp_b13] passes its keyword dictionaries to [mrp_params_b13]
    in the order [beta_kw, alpha_kw, Hs_kw, logA_kw]: the scale mass that
    [core.mrp] receives is [logHs_b13(z, Om0, sig8, **beta_kw)] and the
    cut-off is [beta_b13(z, Om0, sig8, **Hs_kw)]. *)
Theorem X18_mrp_b13_keyword_routing m z Om0 sig8 Hs_kw alpha_kw beta_kw logA_kw
    mmin mmax norm log Arhoc_kw hs alpha beta logA :
  logHs_b13 z Om0 sig8 beta_kw = Ok hs →
  alpha_b13 z Om0 sig8 alpha_kw = Ok alpha →
  beta_b13 z Om0 sig8 Hs_kw = Ok beta →
  logA_b13 z Om0 sig8 logA_kw = Ok logA →
  mrp_b13 mrp m z Om0 sig8 Hs_kw alpha_kw beta_kw logA_kw mmin mmax norm log Arhoc_kw
    = (norm' <- (if is_None norm then np_exp logA else Ok norm) ;;
       mrp m hs alpha beta mmin mmax norm' log Arhoc_kw).
Proof.
  intros Hhs Halpha Hbeta HlogA. unfold mrp_b13, mrp_params_b13.
  by rewrite Hhs, Halpha, Hbeta, HlogA.
Qed.

(** X19: a key of [Hs_kw] that is no parameter of [beta_b13] (such as
    [h], which [logHs_b13] takes) makes [mrp_b13] raise: [Hs_kw] is
    unpacked into the call of [beta_b13]. *)
Theorem X19_mrp_b13_Hs_kw_rejected m z Om0 sig8 Hs_kw alpha_kw beta_kw logA_kw
    mmin mmax norm log Arhoc_kw k v :
  (k, v) ∈ Hs_kw → k ∉ beta_b13_params →
  raises (mrp_b13 mrp m z Om0 sig8 Hs_kw alpha_kw beta_kw logA_kw mmin mmax norm log
            Arhoc_kw).
Proof.
  intros Hin Hk. unfold mrp_b13, mrp_params_b13.
  apply raises_bind.
  apply raises_bind_k. intros hs. apply raises_bind_k. intros alpha.
  apply raises_bind. unfold beta_b13. apply raises_bind.
  by eapply bind_kwargs_unexpected.
Qed.

End PhysicalDependenceFacts.

Lemma X18_mrp_b13_keyword_routing_witness :
  ∃ hs hs' beta beta',
    @logHs_b13 demo (PyInt 0) (PyFloat 0.315) (PyFloat 0.829) [] = Ok hs ∧
    @logHs_b13 demo (PyInt 0) (PyFloat 0.315) (PyFloat 0.829) [("mu", PyFloat 13)] = Ok hs' ∧
    @beta_b13 demo (PyInt 0) (PyFloat 0.315) (PyFloat 0.829) [] = Ok beta ∧
    @beta_b13 demo (PyInt 0) (PyFloat 0.315) (PyFloat 0.829) [("mu", PyFloat 13)] = Ok beta' ∧
    hs ≠ hs' ∧ beta ≠ beta' ∧
    ∃ alpha,
    @mrp_b13 demo mrp_echo (PyFloat 1) (PyInt 0) (PyFloat 0.315) (PyFloat 0.829)
             [("mu", PyFloat 13)] [] [] [] PyNone (PyFloat infinity) (PyFloat 1) (PyInt 0) []
      = Ok (PyTuple [PyFloat 1; hs; alpha; beta'; PyNone; PyFloat infinity; PyFloat 1;
                     PyInt 0]).
Proof.
  eexists _, _, _, _. split; [reflexivity|]. split; [reflexivity|].
  split; [reflexivity|]. split; [reflexivity|].
  split; [by vm_compute|]. split; [by vm_compute|].
  eexists.
  rewrite (@X18_mrp_b13_keyword_routing demo mrp_echo (PyFloat 1) (PyInt 0) (PyFloat 0.315)
             (PyFloat 0.829) [("mu", PyFloat 13)] [] [] [] PyNone (PyFloat infinity)
             (PyFloat 1) (PyInt 0) [] _ _ _ _ eq_refl eq_refl eq_refl eq_refl).
  reflexivity.
Defined.

Lemma X19_mrp_b13_Hs_kw_rejected_witness :
  is_Ok (@logHs_b13 demo (PyInt 0) (PyFloat 0.315) (PyFloat 0.829)
           [("h", PyFloat 0.003)]) ∧
  raises (@mrp_b13 demo mrp_echo (PyFloat 1) (PyInt 0) (PyFloat 0.315) (PyFloat 0.829)
            [("h", PyFloat 0.003)] [] [] [] PyNone (PyFloat infinity) PyNone (PyInt 0) []) ∧
  @mrp_b13 demo mrp_echo (PyFloat 1) (PyInt 0) (PyFloat 0.315) (PyFloat 0.829)
           [("h", PyFloat 0.003)] [] [] [] PyNone (PyFloat infinity) PyNone (PyInt 0) []
    = Raise (TypeError "beta_b13() got an unexpected keyword argument 'h'").
Proof.
  split; [eexists; reflexivity|]. split; [|reflexivity].
  apply (@X19_mrp_b13_Hs_kw_rejected demo mrp_echo _ _ _ _ [("h", PyFloat 0.003)] [] [] []
           _ _ _ _ _ "h" (PyFloat 0.003)).
  - apply list_elem_of_here.
  - apply (bool_decide_unpack _). reflexivity.
Defined.
